(** * FlipViewWindows: a shallow embedding of the component and its properties

    Source: [Libraries/Components/FlipViewWindows/FlipViewWindows.windows.js].

    The component is JavaScript that reads properties of objects, builds
    new objects and calls into three collaborators (React, the native
    bridge and the console).  The embedding therefore has

    - JavaScript values and a store of objects addressed by location,
    - a state-and-exception monad over that store and over the trace of
      observable calls (console warnings, bridge commands, user callbacks),
    - the methods of the class, written in that monad line by line. *)

From Stdlib Require Import Floats.SpecFloat.
From stdpp Require Import gmap strings list fin_maps pretty.

(** ** Values *)

Abbreviation loc := nat.

(** A JavaScript number is an IEEE 754 value; [spec_float] is the Standard
    Library's datatype of those: signed zeros, infinities, NaN and finite
    values [(-1)^s * m * 2^e]. *)
Abbreviation number := spec_float.

Inductive value : Type :=
| VUndefined
| VNull
| VBool (b : bool)
| VNum (n : number)
| VStr (s : string)
| VRef (l : loc).

(** The integer [z] as a number: mantissa [|z|], exponent [0]. *)
Definition num_of_Z (z : Z) : number :=
  match z with
  | Z0 => S754_zero false
  | Zpos p => S754_finite false p 0%Z
  | Zneg p => S754_finite true p 0%Z
  end.

Definition VInt (z : Z) : value := VNum (num_of_Z z).

(** ECMAScript ToBoolean: [undefined], [null], [false], [+0], [-0], [NaN]
    and the empty string are falsy, everything else (every object too) is
    truthy. *)
Definition truthy (v : value) : bool :=
  match v with
  | VUndefined | VNull => false
  | VBool b => b
  | VNum (S754_zero _) | VNum S754_nan => false
  | VNum _ => true
  | VStr s => negb (String.eqb s "")
  | VRef _ => true
  end.

(** [v == null]: true of [null] and [undefined] only. *)
Definition nullish (v : value) : bool :=
  match v with
  | VUndefined | VNull => true
  | _ => false
  end.

(** [v !== 'literal']: strict inequality with a string literal. *)
Definition strict_neq_str (v : value) (lit : string) : bool :=
  match v with
  | VStr s => negb (String.eqb s lit)
  | _ => true
  end.

(** ** Objects and the store *)

Inductive object : Type :=
| OPlain (fields : gmap string value)
    (* an object literal: a props object, a style object, an event *)
| OFunction (fields : gmap string value)
    (* a function or class with its properties ([displayName], ...) *)
| OArray (items : list value)
| OElement (type ref props : value).
    (* a React element: what [React.createElement] returns *)

Abbreviation heap := (list object).

(** ** Observable calls *)

Inductive event : Type :=
| Warn (message : string)
    (* console.warn(message) *)
| Dispatch (handle command : value) (args : list value)
    (* UIManager.dispatchViewManagerCommand(handle, command, args) *)
| Call (callee : value) (args : list value).
    (* a call of a function supplied by the user of the component *)

Record state : Type := State { st_heap : heap; st_trace : list event }.

Inductive error : Type :=
| TypeError
| InvariantViolation.
    (* the Error of React's [invariant(false, ...)] *)

(** The outcome of running a piece of code: it returns or it throws, and
    in both cases leaves a store and a trace behind. *)
Inductive result (A : Type) : Type :=
| Returns (a : A) (st : state)
| Throws (e : error) (st : state).
Arguments Returns {A} a st.
Arguments Throws {A} e st.

Definition final {A} (r : result A) : state :=
  match r with
  | Returns _ st => st
  | Throws _ st => st
  end.

Definition M (A : Type) : Type := state → result A.

Definition ret {A} (a : A) : M A := fun st => Returns a st.

Definition bind {A B} (f : A → M B) (m : M A) : M B :=
  fun st =>
    match m st with
    | Returns a st' => f a st'
    | Throws e st' => Throws e st'
    end.

Definition throw {A} (e : error) : M A := fun st => Throws e st.

(** The monad is registered with stdpp's classes, which gives the
    notations [x ← m; k] and [m;; k]. *)
#[global] Instance M_ret : MRet M := @ret.
#[global] Instance M_bind : MBind M := @bind.

(** [mapM f l]: run [f] on the items of [l] from left to right. *)
Fixpoint mapM {A B} (f : A → M B) (l : list A) : M (list B) :=
  match l with
  | [] => mret []
  | x :: r =>
      y ← f x;
      ys ← mapM f r;
      mret (y :: ys)
  end.

(** Allocation of a new object: it gets the next free location. *)
Definition alloc (o : object) : M value :=
  fun st =>
    Returns (VRef (length (st_heap st)))
            (State (st_heap st ++ [o]) (st_trace st)).

Definition emit (e : event) : M unit :=
  fun st => Returns tt (State (st_heap st) (st_trace st ++ [e])).

(** The indexed items of an array or string, as properties. *)
Definition indexed {A} (f : A → value) (l : list A) : gmap string value :=
  list_to_map (imap (fun i a => (pretty i, f a)) l).

(** The property [name] as an object of the store has it.  An array has
    [length] and its indices, an element its three fields. *)
Definition object_get (o : object) (name : string) : value :=
  match o with
  | OPlain fields | OFunction fields => default VUndefined (fields !! name)
  | OArray items =>
      if String.eqb name "length" then VInt (Z.of_nat (length items))
      else default VUndefined (indexed id items !! name)
  | OElement type ref props =>
      if String.eqb name "type" then type
      else if String.eqb name "ref" then ref
      else if String.eqb name "props" then props
      else VUndefined
  end.

(** [v.name], a property read.  Reading a property of [undefined] or
    [null] throws a TypeError.  A boolean, a number or a string has none
    of the properties this component reads ([props], [type], [style],
    [displayName]), so the read gives [undefined].  A location outside the
    store reads as an object without properties. *)
Definition get (v : value) (name : string) : M value :=
  fun st =>
    match v with
    | VUndefined | VNull => throw TypeError st
    | VBool _ | VNum _ | VStr _ => Returns VUndefined st
    | VRef l =>
        match st_heap st !! l with
        | Some o => Returns (object_get o name) st
        | None => Returns VUndefined st
        end
    end.

(** The own enumerable properties of an object, as the spread [{...v}]
    and React's [for (name in config)] enumerate them. *)
Definition object_own (o : object) : gmap string value :=
  match o with
  | OPlain fields | OFunction fields => fields
  | OArray items => indexed id items
  | OElement type ref props =>
      {[ "type" := type; "ref" := ref; "props" := props ]}
  end.

(** [{...v}]: spreading [undefined], [null], a boolean or a number copies
    nothing and does not throw; spreading a string copies its characters
    under their indices. *)
Definition own_properties (v : value) : M (gmap string value) :=
  fun st =>
    match v with
    | VUndefined | VNull | VBool _ | VNum _ => Returns ∅ st
    | VStr s =>
        Returns (indexed (fun c => VStr (String c ""))
                         (String.list_ascii_of_string s))
                st
    | VRef l =>
        match st_heap st !! l with
        | Some o => Returns (object_own o) st
        | None => Returns ∅ st
        end
    end.

(** ** React

    [React.createElement] and [React.Children.map] belong to the React
    library, not to this repository.  They are modelled as far as the
    component depends on them. *)
Module React.

(** The configuration names that [createElement] keeps out of the
    element's props. *)
Definition RESERVED_PROPS : list string :=
  ["key"; "ref"; "__self"; "__source"].

Definition without_reserved (config : gmap string value)
  : gmap string value :=
  delete "key" (delete "ref" (delete "__self" (delete "__source" config))).

(** The ref of the element: [config.ref] unless it is [undefined]. *)
Definition ref_of (config : gmap string value) : value :=
  match config !! "ref" with
  | Some VUndefined | None => VNull
  | Some r => r
  end.

(** The default props of a type: [if (type && type.defaultProps)] the
    properties of [type.defaultProps], otherwise none. *)
Definition defaultProps_of (type : value) : M (gmap string value) :=
  if truthy type then
    defaultProps ← get type "defaultProps";
    if truthy defaultProps then own_properties defaultProps else mret ∅
  else mret ∅.

(** The resolution of the defaults: [for (name in defaultProps)
    if (props[name] === undefined) props[name] = defaultProps[name]]. *)
Definition with_defaults (defaults props : gmap string value)
  : gmap string value :=
  merge (fun prop default =>
           match default, prop with
           | Some d, (None | Some VUndefined) => Some d
           | _, _ => prop
           end)
        props defaults.

(** [React.createElement(type, config)], called without child arguments:
    the own properties of [config] other than the reserved ones go into
    a new props object, in which the default props of the type stand in
    for the props that are [undefined]; [config.ref] becomes the
    element's ref.  Keys are bookkeeping of the reconciler and are not
    modelled. *)
Definition createElement (type config : value) : M value :=
  own ← own_properties config;
  defaults ← defaultProps_of type;
  props ← alloc (OPlain (with_defaults defaults (without_reserved own)));
  alloc (OElement type (ref_of own) props).

#[local] Set Warnings "-register-all".

(** What a component receives in [props.children]: nothing, one child,
    or arrays of children nested to any depth. *)
Inductive node : Type :=
| Leaf (v : value)
| Fragment (items : list node).

(** The children in the order React traverses them. *)
Fixpoint leaves (n : node) : list value :=
  match n with
  | Leaf v => [v]
  | Fragment items => flat_map leaves items
  end.

(** React hands a child that is [undefined] or a boolean to the callback
    as [null]; strings, numbers, [null] and elements are handed over as
    they are. *)
Definition perceived (v : value) : value :=
  match v with
  | VUndefined | VBool _ => VNull
  | _ => v
  end.

(** What the traversal does with one child: an element, like a child
    that is no object, is handed to the callback; a function is passed
    over without a call; any other object makes React throw ("Objects
    are not valid as a React child").  (An array among the children is a
    [Fragment], and a leaf does not refer to an array of the store; the
    store has no objects with an iterator.) *)
Definition visit (func : value → M value) (child : value) : M value :=
  fun st =>
    match child with
    | VRef l =>
        match st_heap st !! l with
        | Some (OElement _ _ _) => func child st
        | Some (OFunction _) => Returns VNull st
        | _ => throw InvariantViolation st
        end
    | _ => func (perceived child) st
    end.

(** [React.Children.map(children, func)]: [children == null] is returned
    as it is; otherwise [func] is called on every child in traversal
    order and the results that are not [null] or [undefined] are
    collected in a new array.  (React fills the new array while it
    traverses; the model allocates it when the traversal is over, which
    differs in the location the array gets and in nothing else.  React
    gives each element that the callback returns a key, by a copy that
    has the type, the ref and the props object of the original; keys not
    being modelled, the model collects the callback's elements
    themselves.  The callback of this component returns [null] or an
    element, never an array, so React's flattening of array results is
    not modelled.) *)
Definition Children_map (children : node) (func : value → M value)
  : M value :=
  match children with
  | Leaf VUndefined => mret VUndefined
  | Leaf VNull => mret VNull
  | _ =>
      mapped ← mapM (visit func) (leaves children);
      alloc (OArray (List.filter (fun v => negb (nullish v)) mapped))
  end.

End React.

(** ** The host

    What the JavaScript runtime and the native bridge supply to the
    component. *)
Class Host : Type := {
  (** ECMAScript ToString of a number and of an object (through the
      object's own [toString]); the component uses them only to print a
      [displayName] that is not a string. *)
  number_to_string : number → string;
  object_to_string : heap → loc → string;
  (** [UIManager.WindowsFlipView.Commands.setPage], the identifier under
      which the native view manager exports the command. *)
  Commands_setPage : value;
  (** [NativeWindowsFlipView], the result of
      [requireNativeComponent('WindowsFlipView', FlipViewWindows)]. *)
  NativeWindowsFlipView : value
}.

(** To evaluate the component on examples the host is fixed as follows:
    a number prints its mantissa in decimal, which is what JavaScript
    prints for the integers [VInt k] below 1e21 and for no number with
    an exponent (1.5, 1e21); the examples print no number.  An object prints
    as [Object.prototype.toString] prints it, the command identifier is
    [1], and the native component is known by its name. *)
Module Example.

Definition print_number (n : number) : string :=
  match n with
  | S754_zero _ => "0"
  | S754_nan => "NaN"
  | S754_infinity false => "Infinity"
  | S754_infinity true => "-Infinity"
  | S754_finite false m _ => pretty (Zpos m)
  | S754_finite true m _ => pretty (Zneg m)
  end.

Definition print_object (h : heap) (l : loc) : string := "[object Object]".

Definition host : Host :=
  {| number_to_string := print_number;
     object_to_string := print_object;
     Commands_setPage := VInt 1;
     NativeWindowsFlipView := VStr "WindowsFlipView" |}.

End Example.

(** ** The component *)

Section FlipViewWindows.

Context {host : Host}.

Definition to_string (h : heap) (v : value) : string :=
  match v with
  | VUndefined => "undefined"
  | VNull => "null"
  | VBool true => "true"
  | VBool false => "false"
  | VNum n => number_to_string n
  | VStr s => s
  | VRef l => object_to_string h l
  end.

(** ['literal' + v] *)
Definition concat (lit : string) (v : value) : M string :=
  fun st => Returns (lit +:+ to_string (st_heap st) v) st.

Definition console_warn (message : string) : M unit := emit (Warn message).

Definition dispatchViewManagerCommand
  (handle command : value) (args : list value) : M unit :=
  emit (Dispatch handle command args).

(** A call [f(args)] of a value supplied by the user.  Calling what is
    not a function throws a TypeError.  The body of the function is the
    user's: the call is recorded, its own effects are outside the
    component. *)
Definition call (f : value) (args : list value) : M value :=
  fun st =>
    match f with
    | VRef l =>
        match st_heap st !! l with
        | Some (OFunction _) =>
            Returns VUndefined
                    (State (st_heap st) (st_trace st ++ [Call f args]))
        | _ => throw TypeError st
        end
    | _ => throw TypeError st
    end.

(** *** The instance *)

Record instance : Type := Instance {
  props : gmap string value;
    (* this.props, all of it but children *)
  children : React.node;
    (* this.props.children *)
  node_handle : value;
    (* ReactNative.findNodeHandle(this) *)
  relay : value
    (* this._onSelectionChange, the function object bound to the instance *)
}.

(** [this.props.name] *)
Definition prop (this : instance) (name : string) : value :=
  default VUndefined (props this !! name).

Definition FLIPVIEW_REF : string := "flipView".

(** *** Methods *)

(** [setPage = (selectedPage) => UIManager.dispatchViewManagerCommand(
      ReactNative.findNodeHandle(this),
      UIManager.WindowsFlipView.Commands.setPage, [selectedPage])] *)
Definition setPage (this : instance) (selectedPage : value) : M unit :=
  dispatchViewManagerCommand (node_handle this) Commands_setPage
                             [selectedPage].

(** [componentDidMount() { if (this.props.initialPage) {
      this.setPage(this.props.initialPage); } }] *)
Definition componentDidMount (this : instance) : M unit :=
  if truthy (prop this "initialPage")
  then setPage this (prop this "initialPage")
  else mret tt.

(** [_onSelectionChange = (e) => { if (this.props.onSelectionChange) {
      this.props.onSelectionChange(e); } }] *)
Definition _onSelectionChange (this : instance) (e : value) : M unit :=
  if truthy (prop this "onSelectionChange")
  then call (prop this "onSelectionChange") [e];; mret tt
  else mret tt.

(** The style object that makes a page fill its parent. *)
Definition fill_overlay : gmap string value :=
  {[ "position" := VStr "absolute";
     "left" := VInt 0;
     "top" := VInt 0;
     "right" := VInt 0;
     "bottom" := VInt 0;
     "width" := VUndefined;
     "height" := VUndefined ]}.

Definition warning_prefix : string :=
  "Each FlipView child must be a <View>. Was ".

(** The check on the child's type: [if (child.type &&
    child.type.displayName && (child.type.displayName !== 'RCTView') &&
    (child.type.displayName !== 'View')) console.warn(...)]. *)
Definition warnUnlessView (child : value) : M unit :=
  type ← get child "type";
  if truthy type then
    displayName ← get type "displayName";
    if truthy displayName
       && strict_neq_str displayName "RCTView"
       && strict_neq_str displayName "View"
    then
      message ← concat warning_prefix displayName;
      console_warn message
    else mret tt
  else mret tt.

(** The function mapped over the children in
    [_childrenWithOverridenStyle]. *)
Definition childWithOverridenStyle (child : value) : M value :=
  if negb (truthy child) then mret VNull
  else
    childProps ← get child "props";
    spread ← own_properties childProps;
    style ← get childProps "style";
    overlay ← alloc (OPlain fill_overlay);
    styles ← alloc (OArray [style; overlay]);
    newProps ← alloc (OPlain (<["collapsable" := VBool false]>
                               (<["style" := styles]> spread)));
    warnUnlessView child;;
    type ← get child "type";
    React.createElement type newProps.

(** [_childrenWithOverridenStyle = () =>
      React.Children.map(this.props.children, function(child) {...})] *)
Definition _childrenWithOverridenStyle (this : instance) : M value :=
  React.Children_map (children this) childWithOverridenStyle.

(** [render()]: the JSX is [React.createElement(NativeWindowsFlipView,
    {ref, style, alwaysAnimate, onSelectionChange, selectedIndex,
    children})].  Of the attribute values only [children] has an effect,
    the call of [_childrenWithOverridenStyle]. *)
Definition render (this : instance) : M value :=
  rewritten ← _childrenWithOverridenStyle this;
  config ← alloc (OPlain
    {[ "ref" := VStr FLIPVIEW_REF;
       "style" := prop this "style";
       "alwaysAnimate" := prop this "alwaysAnimate";
       "onSelectionChange" := relay this;
       "selectedIndex" := prop this "selectedIndex";
       "children" := rewritten ]});
  React.createElement NativeWindowsFlipView config.

(** *** Reading the store without running code *)

(** [v.name] in store [h] when [v] is not [undefined] or [null]. *)
Definition peek (h : heap) (v : value) (name : string) : value :=
  match v with
  | VRef l =>
      match h !! l with
      | Some o => object_get o name
      | None => VUndefined
      end
  | _ => VUndefined
  end.

(** A value of store [h]: a primitive, or a reference to one of its
    objects. *)
Definition in_store (h : heap) (v : value) : bool :=
  match v with
  | VRef l => bool_decide (l < length h)%nat
  | _ => true
  end.

(** [element h v]: [v] is a React element of store [h]; its type, its
    ref and the contents of its props object. *)
Definition element (h : heap) (v : value)
  : option (value * value * gmap string value) :=
  match v with
  | VRef l =>
      match h !! l with
      | Some (OElement type ref (VRef p)) =>
          match h !! p with
          | Some (OPlain fields) =>
              if in_store h type then Some (type, ref, fields) else None
          | _ => None
          end
      | _ => None
      end
  | _ => None
  end.

Definition is_element (h : heap) (v : value) : bool :=
  match element h v with
  | Some _ => true
  | None => false
  end.

Definition is_function (h : heap) (v : value) : bool :=
  match v with
  | VRef l =>
      match h !! l with
      | Some (OFunction _) => true
      | _ => false
      end
  | _ => false
  end.

(** The props of an element built by [React.createElement] hold none of
    the reserved names. *)
Definition no_reserved (fields : gmap string value) : bool :=
  forallb (fun name => bool_decide (fields !! name = None))
          React.RESERVED_PROPS.

(** A child that the callback does not skip: React hands it over as a
    truthy value. *)
Definition kept (child : value) : bool := truthy (React.perceived child).

(** Every child that is not skipped is an element. *)
Definition pages_are_elements (h : heap) (children : React.node) : bool :=
  forallb (fun child => implb (kept child) (is_element h child))
          (React.leaves children).

(** The items of the array that [v] refers to; none when [v] is no
    array ([React.Children.map] returns [undefined] or [null] when there
    are no children at all). *)
Definition items_of (h : heap) (v : value) : list value :=
  match v with
  | VRef a =>
      match h !! a with
      | Some (OArray items) => items
      | _ => []
      end
  | _ => []
  end.

(** What the check on the child's type logs in store [h]. *)
Definition type_warning (h : heap) (type : value) : list event :=
  if truthy type
     && truthy (peek h type "displayName")
     && strict_neq_str (peek h type "displayName") "RCTView"
     && strict_neq_str (peek h type "displayName") "View"
  then [Warn (warning_prefix +:+ to_string h (peek h type "displayName"))]
  else [].

(** The own enumerable properties of [v] in store [h]. *)
Definition own_of (h : heap) (v : value) : gmap string value :=
  match v with
  | VUndefined | VNull | VBool _ | VNum _ => ∅
  | VStr s =>
      indexed (fun c => VStr (String c "")) (String.list_ascii_of_string s)
  | VRef l =>
      match h !! l with
      | Some o => object_own o
      | None => ∅
      end
  end.

(** The default props of [type] in store [h]. *)
Definition defaults_of (h : heap) (type : value) : gmap string value :=
  if truthy type && truthy (peek h type "defaultProps")
  then own_of h (peek h type "defaultProps")
  else ∅.

(** The props [fields] have the defaults of [type] resolved, as the props
    of an element have that [React.createElement] built for [type]:
    resolving the defaults again changes nothing.  ([type.defaultProps]
    is a value of the store.) *)
Definition defaults_resolved
  (h : heap) (type : value) (fields : gmap string value) : Prop :=
  in_store h (peek h type "defaultProps") = true
  ∧ React.with_defaults (defaults_of h type) fields = fields.

(** The props object that the callback passes to [createElement]. *)
Definition newProps_of (fields : gmap string value) (styles : value)
  : gmap string value :=
  <["collapsable" := VBool false]> (<["style" := styles]> fields).

(** Rewriting one element adds five objects to a store of [n] objects:
    first the overlay, the style array and the props passed to
    [createElement], ... *)
Definition config_objects (n : nat) (fields : gmap string value)
  : list object :=
  [ OPlain fill_overlay;
    OArray [default VUndefined (fields !! "style"); VRef n];
    OPlain (newProps_of fields (VRef (n + 1))) ].

(** ... then the props object and the element that [createElement]
    builds from them; [defaults] are the default props of [type]. *)
Definition element_objects (n : nat) (type : value)
  (defaults fields : gmap string value) : list object :=
  [ OPlain (React.with_defaults defaults
              (React.without_reserved (newProps_of fields (VRef (n + 1)))));
    OElement type (React.ref_of (newProps_of fields (VRef (n + 1))))
             (VRef (n + 3)) ].

(** The objects [objs] sit in store [h] from location [n] on. *)
Definition placed_at (h : heap) (n : nat) (objs : list object) : Prop :=
  ∀ i o, objs !! i = Some o → h !! (n + i)%nat = Some o.

(** [r], an element of store [h'], is the rewriting of [child], an
    element of store [h]: the five objects built from [child] were added
    to [h] at some location [n], and [r] is the last of them.  The
    defaults of the type are those of the store in which
    [createElement] ran, which held the [n + 3] objects before the
    fourth. *)
Definition rewritten (h h' : heap) (child r : value) : Prop :=
  ∃ type ref fields n,
    element h child = Some (type, ref, fields)
    ∧ (length h ≤ n)%nat
    ∧ r = VRef (n + 4)
    ∧ placed_at h' n
        (config_objects n fields
         ++ element_objects n type
              (defaults_of (take (n + 3) h') type) fields).

(** The callback of [_childrenWithOverridenStyle] with the check on the
    child's type taken out; the callback is compared with it to say
    that the warning does not alter what is rendered. *)
Definition childWithoutCheck (child : value) : M value :=
  if negb (truthy child) then mret VNull
  else
    childProps ← get child "props";
    spread ← own_properties childProps;
    style ← get childProps "style";
    overlay ← alloc (OPlain fill_overlay);
    styles ← alloc (OArray [style; overlay]);
    newProps ← alloc (OPlain (<["collapsable" := VBool false]>
                               (<["style" := styles]> spread)));
    type ← get child "type";
    React.createElement type newProps.





(** The configuration that [render] passes to [createElement], the
    props that it holds, and the three objects that [render] adds to a
    store [h1] after the children: the configuration, the props of the
    native element, in which the default props of the native control are
    resolved, and the element. *)
Definition native_config (this : instance) (rendered : value)
  : gmap string value :=
  {[ "ref" := VStr FLIPVIEW_REF;
     "style" := prop this "style";
     "alwaysAnimate" := prop this "alwaysAnimate";
     "onSelectionChange" := relay this;
     "selectedIndex" := prop this "selectedIndex";
     "children" := rendered ]}.

Definition native_props (this : instance) (rendered : value)
  : gmap string value :=
  {[ "style" := prop this "style";
     "alwaysAnimate" := prop this "alwaysAnimate";
     "onSelectionChange" := relay this;
     "selectedIndex" := prop this "selectedIndex";
     "children" := rendered ]}.

Definition native_objects (this : instance) (h1 : heap) (rendered : value)
  : list object :=
  [ OPlain (native_config this rendered);
    OPlain (React.with_defaults
              (defaults_of (h1 ++ [OPlain (native_config this rendered)])
                           NativeWindowsFlipView)
              (native_props this rendered));
    OElement NativeWindowsFlipView (VStr FLIPVIEW_REF)
             (VRef (length h1 + 1)) ].

(** [this.props.children == null]: there are no children at all. *)
Definition no_children (children : React.node) : bool :=
  match children with
  | React.Leaf v => nullish v
  | React.Fragment _ => false
  end.


(** *** The specification's sentences that the code does not satisfy

    Five sentences of the specification hold of the code only in an amended
    form.  They are written down here as the specification words them, to
    be refuted on an example further down. *)

(** "For all configurations with [initialPage] set to a defined
    nonzero-or-zero integer, mounting issues exactly one page-set command
    with that integer as argument." *)
Definition one_command_for_every_initialPage
  (this : instance) (st : state) : Prop :=
  ∀ k, props this !! "initialPage" = Some (VInt k) →
       componentDidMount this st
       = Returns tt
           (State (st_heap st)
                  (st_trace st
                   ++ [Dispatch (node_handle this) Commands_setPage [VInt k]])).

(** "No error is raised; always succeeds given any input." *)
Definition render_succeeds (this : instance) (st : state) : Prop :=
  ∃ l st' ref props,
    render this st = Returns (VRef l) st'
    ∧ st_heap st' !! l = Some (OElement NativeWindowsFlipView ref props).

(** "The rendered child count equals the input child count minus the
    number of null/undefined entries." *)
Definition count_less_nullish (this : instance) (st : state) : Prop :=
  ∃ v st',
    _childrenWithOverridenStyle this st = Returns v st'
    ∧ length (items_of (st_heap st') v)
      = (length (React.leaves (children this))
         - length (List.filter nullish (React.leaves (children this))))%nat.

(** "If the child's displayed type name is not one of the two expected
    primitive-view type names, a non-fatal diagnostic warning is emitted." *)
Definition warned_for_every_other_name (child : value) (st : state) : Prop :=
  ∀ type ref fields name,
    element (st_heap st) child = Some (type, ref, fields) →
    peek (st_heap st) type "displayName" = VStr name →
    name ≠ "RCTView" → name ≠ "View" →
    ∃ r h',
      childWithOverridenStyle child st
      = Returns r (State h' (st_trace st ++ [Warn (warning_prefix +:+ name)])).


(** *** A store for the examples

    Locations 0 and 1 hold the user's selection callback and the relay
    bound to the instance, 2 to 5 four component types ([View], [Text],
    a component without [displayName] and one whose [displayName] is
    empty), 6 to 13 one element of each type with its props, 14 and 15
    a selection event [{nativeEvent: {position: 1}}]. *)
Definition example_store : heap :=
  [ OFunction ∅;
    OFunction ∅;
    OFunction {[ "displayName" := VStr "View" ]};
    OFunction {[ "displayName" := VStr "Text" ]};
    OFunction ∅;
    OFunction {[ "displayName" := VStr "" ]};
    OPlain {[ "style" := VInt 7; "testID" := VStr "first" ]};
    OElement (VRef 2) VNull (VRef 6);
    OPlain ∅;
    OElement (VRef 3) VNull (VRef 8);
    OPlain ∅;
    OElement (VRef 4) VNull (VRef 10);
    OPlain ∅;
    OElement (VRef 5) VNull (VRef 12);
    OPlain {[ "position" := VInt 1 ]};
    OPlain {[ "nativeEvent" := VRef 14 ]} ].

Definition example_state : state := State example_store [].

(** [<FlipViewWindows initialPage={1} alwaysAnimate={true}
      onSelectionChange={f}> <View .../> <Text/> </FlipViewWindows>] *)
Definition example_this : instance :=
  {| props := {[ "initialPage" := VInt 1;
                 "alwaysAnimate" := VBool true;
                 "onSelectionChange" := VRef 0 ]};
     children := React.Fragment [React.Leaf (VRef 7); React.Leaf (VRef 9)];
     node_handle := VInt 42;
     relay := VRef 1 |}.

(** The same with other props or other children. *)
Definition example_with (props : gmap string value) (children : React.node)
  : instance :=
  {| props := props; children := children;
     node_handle := VInt 42; relay := VRef 1 |}.

(** *** The rest of the class *)

(** A call [f(args)] whose result is used.  The result is the callee's
    and no concern of the component: it is given as [answer]. *)
Definition call_returning (answer f : value) (args : list value) : M value :=
  fun st =>
    match f with
    | VRef l =>
        match st_heap st !! l with
        | Some (OFunction _) =>
            Returns answer
                    (State (st_heap st) (st_trace st ++ [Call f args]))
        | _ => throw TypeError st
        end
    | _ => throw TypeError st
    end.

(** [getInnerViewNode = () =>
      this.refs[FLIPVIEW_REF].getInnerViewNode()].
    [refs] is [this.refs], the object in which React keeps the mounted
    refs of the instance; [answer] is what the method of the native
    component returns. *)
Definition getInnerViewNode (refs answer : value) : M value :=
  flipView ← get refs FLIPVIEW_REF;
  method ← get flipView "getInnerViewNode";
  call_returning answer method [].

(** *** Further notions for the properties *)

Definition is_warn (e : event) : bool :=
  match e with
  | Warn _ => true
  | _ => false
  end.

(** [m] adds to the trace at most [k] events, all of them warnings. *)
Definition logs_at_most {A} (k : nat) (m : M A) : Prop :=
  ∀ st, ∃ ws,
    st_trace (final (m st)) = st_trace st ++ ws
    ∧ forallb is_warn ws = true
    ∧ (length ws ≤ k)%nat.

(** A string or a number (or another value that is no object). *)
Definition primitive (v : value) : bool :=
  match v with
  | VRef _ => false
  | _ => true
  end.

(** What the callback logs for [child], an element of store [h]. *)
Definition child_warning (h : heap) (child : value) : list event :=
  match element h child with
  | Some (type, _, _) => type_warning h type
  | None => []
  end.

(** The [displayName] of the type of every element among [children] is
    no object (it is a string, as React has it, or missing). *)
Definition names_are_primitive (h : heap) (children : React.node) : bool :=
  forallb (fun child =>
             match element h child with
             | Some (type, _, _) => primitive (peek h type "displayName")
             | None => true
             end)
          (React.leaves children).

(** The store of the examples with six more objects: at 16 and 17 a
    [View] page that carries the ref ['page'], at 18 the [refs] object of
    an instance that is not mounted, at 19 and 20 a native view with its
    [getInnerViewNode], at 21 the [refs] object of an instance whose
    native view is mounted. *)
Definition example_store_with_ref : heap :=
  example_store
  ++ [ OPlain ∅;
       OElement (VRef 2) (VStr "page") (VRef 16);
       OPlain ∅;
       OFunction ∅;
       OPlain {[ "getInnerViewNode" := VRef 19 ]};
       OPlain {[ "flipView" := VRef 20 ]} ].

(** The store of the examples with six more objects: at 16 and 17 a
    component type with [defaultProps = {testID: 'dflt'}], at 18 and 19
    an element of it as [React.createElement] builds it for
    [style={7} testID='own'], at 20 and 21 an element of it made by hand, without
    [testID]. *)
Definition example_store_with_defaults : heap :=
  example_store
  ++ [ OPlain {[ "testID" := VStr "dflt" ]};
       OFunction {[ "defaultProps" := VRef 16 ]};
       OPlain {[ "style" := VInt 7; "testID" := VStr "own" ]};
       OElement (VRef 17) VNull (VRef 18);
       OPlain ∅;
       OElement (VRef 17) VNull (VRef 20) ].

(** ** Running the code *)

Lemma bind_run {A B} (m : M A) (f : A → M B) st :
  (m ≫= f) st = match m st with
                | Returns a st' => f a st'
                | Throws e st' => Throws e st'
                end.
Proof. reflexivity. Qed.

Lemma alloc_run o h tr :
  alloc o (State h tr) = Returns (VRef (length h)) (State (h ++ [o]) tr).
Proof. reflexivity. Qed.

Lemma peek_get h tr v name :
  nullish v = false →
  get v name (State h tr) = Returns (peek h v name) (State h tr).
Proof.
  destruct v; try done; intros _; unfold get, peek; cbn.
  by destruct (h !! l).
Qed.

Lemma own_properties_ref h tr l o :
  h !! l = Some o →
  own_properties (VRef l) (State h tr) = Returns (object_own o) (State h tr).
Proof. intros Hl. unfold own_properties. cbn. by rewrite Hl. Qed.

Lemma peek_element_props h l type ref props :
  h !! l = Some (OElement type ref props) →
  peek h (VRef l) "props" = props.
Proof. intros Hl. unfold peek. by rewrite Hl. Qed.

Lemma peek_element_type h l type ref props :
  h !! l = Some (OElement type ref props) →
  peek h (VRef l) "type" = type.
Proof. intros Hl. unfold peek. by rewrite Hl. Qed.

Lemma peek_plain h l fields name :
  h !! l = Some (OPlain fields) →
  peek h (VRef l) name = default VUndefined (fields !! name).
Proof. intros Hl. unfold peek. by rewrite Hl. Qed.

Lemma own_properties_run h tr v :
  own_properties v (State h tr) = Returns (own_of h v) (State h tr).
Proof.
  destruct v; try done. unfold own_properties, own_of. cbn.
  by destruct (h !! l).
Qed.

Lemma defaultProps_of_run h tr type :
  React.defaultProps_of type (State h tr)
  = Returns (defaults_of h type) (State h tr).
Proof.
  unfold React.defaultProps_of, defaults_of.
  destruct (truthy type) eqn:Ht; [|done]. cbn [andb].
  rewrite bind_run, peek_get by by destruct type.
  destruct (truthy (peek h type "defaultProps")); [|done].
  apply own_properties_run.
Qed.

Lemma createElement_run h tr type c config :
  h !! c = Some (OPlain config) →
  React.createElement type (VRef c) (State h tr)
  = Returns (VRef (length h + 1))
      (State (h ++ [ OPlain (React.with_defaults (defaults_of h type)
                               (React.without_reserved config));
                     OElement type (React.ref_of config)
                              (VRef (length h)) ])
             tr).
Proof.
  intros Hc. unfold React.createElement.
  rewrite bind_run, (own_properties_ref _ _ _ _ Hc).
  rewrite bind_run, defaultProps_of_run.
  rewrite bind_run, alloc_run, alloc_run. cbn [object_own].
  rewrite length_app, <- (assoc_L (++)). done.
Qed.

(** *** Values of a store keep their meaning when the store grows *)

Lemma lookup_in_store h l o :
  h !! l = Some o → in_store h (VRef l) = true.
Proof.
  intros Hl%lookup_lt_Some. unfold in_store. by apply bool_decide_eq_true.
Qed.

Lemma in_store_lookup h ext v name :
  in_store h v = true → peek (h ++ ext) v name = peek h v name.
Proof.
  destruct v; try done. unfold in_store, peek.
  intros Hl%bool_decide_eq_true. by rewrite lookup_app_l.
Qed.

Lemma in_store_grows h ext v :
  in_store h v = true → in_store (h ++ ext) v = true.
Proof.
  destruct v; try done. unfold in_store.
  intros Hl%bool_decide_eq_true. apply bool_decide_eq_true.
  rewrite length_app. lia.
Qed.

Lemma element_inv h child type ref fields :
  element h child = Some (type, ref, fields) →
  ∃ l p, child = VRef l
         ∧ h !! l = Some (OElement type ref (VRef p))
         ∧ h !! p = Some (OPlain fields)
         ∧ in_store h type = true.
Proof.
  unfold element. intros H.
  destruct child as [| | | | |l]; try done.
  destruct (h !! l) as [[| | |ty rf [| | | | |p]]|] eqn:Hl; try done.
  destruct (h !! p) as [[fs| | |]|] eqn:Hp; try done.
  destruct (in_store h ty) eqn:Hs; try done.
  injection H as -> -> ->. eauto 10.
Qed.

Lemma element_grows h ext child e :
  element h child = Some e → element (h ++ ext) child = Some e.
Proof.
  destruct e as [[type ref] fields].
  intros (l & p & -> & Hl & Hp & Hs)%element_inv. unfold element.
  rewrite (lookup_app_l_Some _ _ _ _ Hl), (lookup_app_l_Some _ _ _ _ Hp).
  by rewrite in_store_grows.
Qed.

Lemma placed_at_grows h ext n objs :
  placed_at h n objs → placed_at (h ++ ext) n objs.
Proof. intros H i o Hi. by apply lookup_app_l_Some, H. Qed.

Lemma placed_at_end h objs : placed_at (h ++ objs) (length h) objs.
Proof.
  intros i o Hi. rewrite lookup_app_r by lia.
  by replace (length h + i - length h)%nat with i by lia.
Qed.

(** *** The callback on one child *)

Lemma warnUnlessView_run h tr child type :
  nullish child = false →
  peek h child "type" = type →
  warnUnlessView child (State h tr)
  = Returns tt (State h (tr ++ type_warning h type)).
Proof.
  intros Hc <-. unfold warnUnlessView, type_warning.
  rewrite bind_run, peek_get by done.
  set (type := peek h child "type").
  destruct (truthy type) eqn:Ht; cbn [andb].
  - assert (nullish type = false) as Hn by (by destruct type).
    rewrite bind_run, peek_get by done.
    destruct (truthy _ && _ && _); cbn.
    + done.
    + by rewrite app_nil_r.
  - cbn. by rewrite app_nil_r.
Qed.

Lemma childWithOverridenStyle_falsy child st :
  truthy child = false →
  childWithOverridenStyle child st = Returns VNull st.
Proof. intros H. unfold childWithOverridenStyle. by rewrite H. Qed.

Lemma childWithOverridenStyle_no_props child h tr :
  truthy child = true →
  nullish (peek h child "props") = true →
  childWithOverridenStyle child (State h tr) = Throws TypeError (State h tr).
Proof.
  intros Ht Hp. unfold childWithOverridenStyle. rewrite Ht. cbn [negb].
  assert (nullish child = false) as Hn by (by destruct child).
  rewrite bind_run, peek_get by done.
  rewrite bind_run.
  destruct (peek h child "props"); try done.
Qed.

(** The common part of the callback and of its variant without the
    check: the props passed to [createElement] are built. *)
Ltac build_config Hl Hp :=
  rewrite bind_run, peek_get, (peek_element_props _ _ _ _ _ Hl) by done;
  rewrite bind_run, (own_properties_ref _ _ _ _ Hp);
  rewrite bind_run, peek_get, (peek_plain _ _ _ _ Hp) by done;
  cbn [object_own];
  rewrite bind_run, alloc_run, bind_run, alloc_run, bind_run, alloc_run;
  rewrite <- !(assoc_L (++)); cbn [app];
  rewrite !length_app; cbn [length];
  unfold config_objects, element_objects, newProps_of.

Ltac build_element h Hl :=
  rewrite bind_run, peek_get by done;
  rewrite (in_store_lookup h) by eauto using lookup_in_store;
  rewrite (peek_element_type _ _ _ _ _ Hl);
  erewrite createElement_run;
  [| rewrite lookup_app_r by lia;
     by replace (length h + 2 - length h)%nat with 2%nat by lia ];
  rewrite length_app; cbn [length];
  rewrite <- (assoc_L (++)); cbn [app];
  by replace (length h + 3 + 1)%nat with (length h + 4)%nat by lia.

Lemma childWithOverridenStyle_element h tr child type ref fields :
  element h child = Some (type, ref, fields) →
  childWithOverridenStyle child (State h tr)
  = Returns (VRef (length h + 4))
      (State (h ++ config_objects (length h) fields
                ++ element_objects (length h) type
                     (defaults_of (h ++ config_objects (length h) fields)
                                  type)
                     fields)
             (tr ++ type_warning (h ++ config_objects (length h) fields)
                                 type)).
Proof.
  intros (l & p & -> & Hl & Hp & Hs)%element_inv.
  unfold childWithOverridenStyle. cbn [truthy negb].
  build_config Hl Hp.
  rewrite bind_run, (warnUnlessView_run _ _ _ type).
  2: done.
  2:{ rewrite (in_store_lookup h) by eauto using lookup_in_store.
      apply (peek_element_type _ _ _ _ _ Hl). }
  build_element h Hl.
Qed.

Lemma childWithoutCheck_element h tr child type ref fields :
  element h child = Some (type, ref, fields) →
  childWithoutCheck child (State h tr)
  = Returns (VRef (length h + 4))
      (State (h ++ config_objects (length h) fields
                ++ element_objects (length h) type
                     (defaults_of (h ++ config_objects (length h) fields)
                                  type)
                     fields)
             tr).
Proof.
  intros (l & p & -> & Hl & Hp & Hs)%element_inv.
  unfold childWithoutCheck. cbn [truthy negb].
  build_config Hl Hp.
  build_element h Hl.
Qed.

(** *** The children in sequence *)

Lemma mapM_cons {A B} (f : A → M B) x l st :
  mapM f (x :: l) st
  = match f x st with
    | Returns y st1 =>
        match mapM f l st1 with
        | Returns ys st2 => Returns (y :: ys) st2
        | Throws e st2 => Throws e st2
        end
    | Throws e st1 => Throws e st1
    end.
Proof.
  cbn [mapM]. rewrite bind_run. destruct (f x st); [|done].
  by rewrite bind_run.
Qed.

Lemma rewritten_not_nullish h h' child r :
  rewritten h h' child r → nullish r = false.
Proof. by intros (? & ? & ? & ? & _ & _ & -> & _). Qed.

Lemma rewritten_grows h h' ext child r :
  rewritten h h' child r → rewritten h (h' ++ ext) child r.
Proof.
  intros (type & ref & fields & n & He & Hn & -> & Hp).
  exists type, ref, fields, n. repeat split; try done.
  assert (n + 4 < length h')%nat as Hlen.
  { eapply lookup_lt_Some, (Hp 4%nat). reflexivity. }
  rewrite take_app_le by lia. by apply placed_at_grows.
Qed.

(** The five objects that the callback has just added to a store [h1]. *)
Lemma rewritten_end h h1 child type ref fields :
  element h child = Some (type, ref, fields) →
  (length h ≤ length h1)%nat →
  rewritten h
    (h1 ++ config_objects (length h1) fields
        ++ element_objects (length h1) type
             (defaults_of (h1 ++ config_objects (length h1) fields) type)
             fields)
    child (VRef (length h1 + 4)).
Proof.
  intros He Hlen. exists type, ref, fields, (length h1).
  repeat split; try done.
  rewrite (assoc_L (++) h1), take_app_length'
    by (rewrite length_app; cbn [config_objects length]; lia).
  rewrite <- (assoc_L (++) h1). apply placed_at_end.
Qed.

Lemma kept_element h child :
  is_element h child = true → React.perceived child = child.
Proof.
  unfold is_element, element. by destruct child.
Qed.

Lemma mapM_pages h cs :
  forallb (fun child => implb (kept child) (is_element h child)) cs = true →
  ∀ ext tr, ∃ rs ext' tr',
    mapM (fun child => childWithOverridenStyle (React.perceived child)) cs
         (State (h ++ ext) tr)
    = Returns rs (State (h ++ ext ++ ext') tr')
    ∧ Forall2 (fun child r =>
                 if kept child then rewritten h (h ++ ext ++ ext') child r
                 else r = VNull) cs rs.
Proof.
  induction cs as [|child cs IH]; intros Hall ext tr.
  - exists [], [], tr. rewrite app_nil_r. by split.
  - cbn [forallb] in Hall. apply andb_prop in Hall as [Hc Hcs].
    rewrite mapM_cons. destruct (kept child) eqn:Hk; cbn [implb] in Hc.
    + rewrite (kept_element h) by done.
      unfold is_element in Hc.
      destruct (element h child) as [[[type ref] fields]|] eqn:He; [|done].
      rewrite (childWithOverridenStyle_element _ _ _ type ref fields)
        by by apply element_grows.
      set (objs := config_objects _ _ ++ element_objects _ _ _ _).
      rewrite <- (assoc_L (++) h ext objs).
      match goal with
      | |- context [mapM _ cs (State _ ?t)] =>
          destruct (IH Hcs (ext ++ objs) t) as (rs & ext' & tr' & Hrun & Hrs)
      end.
      rewrite Hrun.
      exists (VRef (length (h ++ ext) + 4) :: rs), (objs ++ ext'), tr'.
      rewrite <- !(assoc_L (++)) in *. split; [done|].
      constructor; [|done]. rewrite Hk.
      replace (h ++ ext ++ objs ++ ext') with (((h ++ ext) ++ objs) ++ ext')
        by (by rewrite <- !(assoc_L (++))).
      apply rewritten_grows.
      apply (rewritten_end h (h ++ ext) child type ref fields He).
      rewrite length_app. lia.
    + rewrite childWithOverridenStyle_falsy by done.
      destruct (IH Hcs ext tr) as (rs & ext' & tr' & Hrun & Hrs).
      rewrite Hrun. exists (VNull :: rs), ext', tr'. split; [done|].
      constructor; [by rewrite Hk|done].
Qed.

(** The traversal hands every child to the callback when the children
    that are not skipped are elements. *)
Lemma visit_page h ext tr (f : value → M value) child :
  implb (kept child) (is_element h child) = true →
  React.visit f child (State (h ++ ext) tr)
  = f (React.perceived child) (State (h ++ ext) tr).
Proof.
  destruct child as [| | | | |l]; try done.
  cbn [kept React.perceived truthy implb]. unfold is_element.
  destruct (element h (VRef l)) as [[[type ref] fields]|] eqn:He; [|done].
  intros _. apply element_inv in He as (l' & p & [= <-] & Hl & _).
  unfold React.visit. cbn [st_heap].
  by rewrite (lookup_app_l_Some _ _ _ _ Hl).
Qed.

Lemma mapM_visit_pages h cs :
  forallb (fun child => implb (kept child) (is_element h child)) cs = true →
  ∀ ext tr,
    mapM (React.visit childWithOverridenStyle) cs (State (h ++ ext) tr)
    = mapM (fun child => childWithOverridenStyle (React.perceived child)) cs
           (State (h ++ ext) tr).
Proof.
  induction cs as [|child cs IH]; intros Hall ext tr; [done|].
  cbn [forallb] in Hall. apply andb_prop in Hall as [Hc Hcs].
  rewrite !mapM_cons, visit_page by done.
  destruct (kept child) eqn:Hk; cbn [implb] in Hc.
  - rewrite (kept_element h) by done. unfold is_element in Hc.
    destruct (element h child) as [[[type ref] fields]|] eqn:He; [|done].
    rewrite (childWithOverridenStyle_element _ _ _ type ref fields)
      by by apply element_grows.
    rewrite <- (assoc_L (++) h). by rewrite IH.
  - rewrite childWithOverridenStyle_falsy by done. by rewrite IH.
Qed.

Lemma children_visited h tr cs :
  forallb (fun child => implb (kept child) (is_element h child)) cs = true →
  mapM (React.visit childWithOverridenStyle) cs (State h tr)
  = mapM (fun child => childWithOverridenStyle (React.perceived child)) cs
         (State h tr).
Proof.
  intros Hall. pose proof (mapM_visit_pages h cs Hall [] tr) as H.
  by rewrite app_nil_r in H.
Qed.

Lemma filter_pages {R : value → value → Prop} cs rs :
  (∀ child r, R child r → nullish r = false) →
  Forall2 (fun child r => if kept child then R child r else r = VNull) cs rs →
  Forall2 R (List.filter kept cs)
            (List.filter (fun v => negb (nullish v)) rs).
Proof.
  intros HR. induction 1 as [|child r cs rs Hr _ IH]; [constructor|].
  cbn [List.filter]. destruct (kept child).
  - rewrite (HR _ _ Hr). by constructor.
  - by subst r.
Qed.

Lemma items_of_new h items :
  items_of (h ++ [OArray items]) (VRef (length h)) = items.
Proof. unfold items_of. by rewrite list_lookup_middle. Qed.

Lemma items_of_grows h ext v :
  in_store h v = true → items_of (h ++ ext) v = items_of h v.
Proof.
  destruct v; try done. unfold in_store, items_of.
  intros Hl%bool_decide_eq_true. by rewrite lookup_app_l.
Qed.

(** What [_childrenWithOverridenStyle] gives when every child that is not
    skipped is an element. *)
Lemma _childrenWithOverridenStyle_pages this h tr :
  pages_are_elements h (children this) = true →
  ∃ v new tr',
    _childrenWithOverridenStyle this (State h tr)
    = Returns v (State (h ++ new) tr')
    ∧ in_store (h ++ new) v = true
    ∧ Forall2 (rewritten h (h ++ new))
              (List.filter kept (React.leaves (children this)))
              (items_of (h ++ new) v).
Proof.
  unfold pages_are_elements, _childrenWithOverridenStyle, React.Children_map.
  intros Hall.
  destruct (mapM_pages h _ Hall [] tr) as (rs & new & tr' & Hrun & Hrs).
  rewrite app_nil_r in Hrun. cbn [app] in Hrun, Hrs.
  apply (filter_pages _ _ (rewritten_not_nullish h (h ++ new))) in Hrs.
  assert (∃ v new0 tr0,
    (mapped ← mapM (React.visit childWithOverridenStyle)
                   (React.leaves (children this));
     alloc (OArray (List.filter (fun v => negb (nullish v)) mapped)))
      (State h tr)
    = Returns v (State (h ++ new0) tr0)
    ∧ in_store (h ++ new0) v = true
    ∧ Forall2 (rewritten h (h ++ new0))
              (List.filter kept (React.leaves (children this)))
              (items_of (h ++ new0) v)) as Hgen.
  { rewrite bind_run, children_visited, Hrun, alloc_run by done.
    eexists _, (new ++ [_]), tr'. rewrite (assoc_L (++)).
    split; [done|]. split.
    - unfold in_store. apply bool_decide_eq_true.
      rewrite !length_app. cbn [length]. lia.
    - rewrite items_of_new.
      eapply Forall2_impl; [exact Hrs|]. eauto using rewritten_grows. }
  destruct (children this) as [[]|items]; try exact Hgen.
  - exists VUndefined, [], tr. rewrite app_nil_r.
    split; [done|]. split; [done|constructor].
  - exists VNull, [], tr. rewrite app_nil_r.
    split; [done|]. split; [done|constructor].
Qed.

(** When there are children, the rewriting produces an array. *)
Lemma _childrenWithOverridenStyle_array this h tr :
  no_children (children this) = false →
  pages_are_elements h (children this) = true →
  ∃ a items new tr',
    _childrenWithOverridenStyle this (State h tr)
    = Returns (VRef a) (State (h ++ new) tr')
    ∧ (length h ≤ a)%nat
    ∧ (h ++ new) !! a = Some (OArray items)
    ∧ Forall2 (rewritten h (h ++ new))
              (List.filter kept (React.leaves (children this)))
              items.
Proof.
  unfold pages_are_elements. intros Hsome Hall.
  destruct (mapM_pages h _ Hall [] tr) as (rs & new & tr' & Hrun & Hrs).
  rewrite app_nil_r in Hrun. cbn [app] in Hrun, Hrs.
  apply (filter_pages _ _ (rewritten_not_nullish h (h ++ new))) in Hrs.
  assert (_childrenWithOverridenStyle this (State h tr)
          = Returns (VRef (length (h ++ new)))
              (State ((h ++ new)
                      ++ [OArray (List.filter (fun v => negb (nullish v))
                                              rs)])
                     tr')) as Hkids.
  { unfold _childrenWithOverridenStyle, React.Children_map.
    destruct (children this) as [[]|items]; try done;
      by rewrite bind_run, children_visited, Hrun, alloc_run. }
  eexists _, _, (new ++ [_]), tr'. rewrite (assoc_L (++)).
  split; [exact Hkids|]. split; [rewrite length_app; lia|].
  split; [by apply list_lookup_middle|].
  eapply Forall2_impl; [exact Hrs|]. eauto using rewritten_grows.
Qed.


(** *** The store only grows *)





















(** *** What [createElement] keeps *)

Lemma no_reserved_inv fields :
  no_reserved fields = true →
  fields !! "key" = None ∧ fields !! "ref" = None
  ∧ fields !! "__self" = None ∧ fields !! "__source" = None.
Proof.
  unfold no_reserved, React.RESERVED_PROPS. cbn [forallb].
  rewrite !andb_true_iff, !bool_decide_eq_true. tauto.
Qed.

Lemma newProps_of_lookup fields styles name :
  name ≠ "style" → name ≠ "collapsable" →
  newProps_of fields styles !! name = fields !! name.
Proof.
  intros Hs Hc. unfold newProps_of. by rewrite !lookup_insert_ne.
Qed.

(** Props without reserved names go into the element as they are. *)
Lemma without_reserved_newProps fields styles :
  no_reserved fields = true →
  React.without_reserved (newProps_of fields styles)
  = newProps_of fields styles
  ∧ React.ref_of (newProps_of fields styles) = VNull.
Proof.
  intros (Hkey & Href & Hself & Hsource)%no_reserved_inv.
  unfold React.without_reserved, React.ref_of.
  rewrite (delete_id _ "__source") by by rewrite newProps_of_lookup.
  rewrite (delete_id _ "__self") by by rewrite newProps_of_lookup.
  rewrite (delete_id _ "ref") by by rewrite newProps_of_lookup.
  rewrite (delete_id _ "key") by by rewrite newProps_of_lookup.
  by rewrite newProps_of_lookup, Href.
Qed.

(** *** The default props *)

Lemma with_defaults_lookup defaults props name :
  React.with_defaults defaults props !! name
  = match defaults !! name, props !! name with
    | Some d, (None | Some VUndefined) => Some d
    | _, prop => prop
    end.
Proof.
  unfold React.with_defaults. rewrite lookup_merge.
  by destruct (props !! name) as [[]|], (defaults !! name).
Qed.

(** Resolving the defaults a second time changes nothing. *)
Lemma with_defaults_idemp defaults props :
  React.with_defaults defaults (React.with_defaults defaults props)
  = React.with_defaults defaults props.
Proof.
  apply map_eq. intros name. rewrite !with_defaults_lookup.
  destruct (defaults !! name) as [d|], (props !! name) as [[]|]; try done;
    by destruct d.
Qed.

Lemma own_of_grows h ext v :
  in_store h v = true → own_of (h ++ ext) v = own_of h v.
Proof.
  destruct v; try done. unfold in_store, own_of.
  intros Hl%bool_decide_eq_true. by rewrite lookup_app_l.
Qed.

Lemma defaults_of_grows h ext type :
  in_store h type = true →
  in_store h (peek h type "defaultProps") = true →
  defaults_of (h ++ ext) type = defaults_of h type.
Proof.
  intros Ht Hd. unfold defaults_of.
  by rewrite in_store_lookup, own_of_grows.
Qed.

(** The props that [createElement] builds for a type have the defaults
    of the type resolved, also in a store that has grown since. *)
Lemma createElement_resolves h ext type config :
  in_store h type = true →
  in_store h (peek h type "defaultProps") = true →
  defaults_resolved (h ++ ext) type
    (React.with_defaults (defaults_of h type) config).
Proof.
  intros Ht Hd. split.
  - rewrite in_store_lookup by done. by apply in_store_grows.
  - rewrite defaults_of_grows by done. apply with_defaults_idemp.
Qed.

(** Props whose defaults are resolved stay as they are when [style] and
    [collapsable] are set in them. *)
Lemma with_defaults_newProps defaults fields l :
  React.with_defaults defaults fields = fields →
  React.with_defaults defaults (newProps_of fields (VRef l))
  = newProps_of fields (VRef l).
Proof.
  intros Hres. apply map_eq. intros name. rewrite with_defaults_lookup.
  destruct (decide (name = "collapsable")) as [->|Hc].
  { unfold newProps_of. rewrite lookup_insert_eq.
    by destruct (defaults !! "collapsable"). }
  destruct (decide (name = "style")) as [->|Hs].
  { unfold newProps_of. rewrite lookup_insert_ne, lookup_insert_eq by done.
    by destruct (defaults !! "style"). }
  rewrite newProps_of_lookup by done.
  apply (f_equal (fun props => props !! name)) in Hres.
  by rewrite with_defaults_lookup in Hres.
Qed.

(** The configuration that [render] passes to [createElement]: the ref
    becomes the ref of the element, the rest its props. *)
Lemma render_config (style alwaysAnimate relay selectedIndex rendered : value) :
  let config : gmap string value :=
    {[ "ref" := VStr FLIPVIEW_REF;
       "style" := style;
       "alwaysAnimate" := alwaysAnimate;
       "onSelectionChange" := relay;
       "selectedIndex" := selectedIndex;
       "children" := rendered ]} in
  React.without_reserved config
  = {[ "style" := style;
       "alwaysAnimate" := alwaysAnimate;
       "onSelectionChange" := relay;
       "selectedIndex" := selectedIndex;
       "children" := rendered ]}
  ∧ React.ref_of config = VStr FLIPVIEW_REF.
Proof. split; reflexivity. Qed.

(** *** [render] after the children *)

Lemma render_after_children this st v h1 tr1 :
  _childrenWithOverridenStyle this st = Returns v (State h1 tr1) →
  render this st
  = Returns (VRef (length h1 + 2))
      (State (h1 ++ native_objects this h1 v) tr1).
Proof.
  intros Hrun. unfold render. rewrite bind_run, Hrun, bind_run, alloc_run.
  erewrite createElement_run by by apply list_lookup_middle.
  destruct (render_config (prop this "style") (prop this "alwaysAnimate")
              (relay this) (prop this "selectedIndex") v) as [-> ->].
  rewrite length_app. cbn [length].
  rewrite <- (assoc_L (++)). cbn [app].
  by replace (length h1 + 1 + 1)%nat with (length h1 + 2)%nat by lia.
Qed.

Lemma render_throws_with_children this st e st1 :
  _childrenWithOverridenStyle this st = Throws e st1 →
  render this st = Throws e st1.
Proof. intros Hrun. unfold render. by rewrite bind_run, Hrun. Qed.

(** The store in which [createElement] ran holds the objects before the
    props of the native element. *)
Lemma take_native_objects this h1 ext v :
  take (length h1 + 1) ((h1 ++ native_objects this h1 v) ++ ext)
  = h1 ++ [OPlain (native_config this v)].
Proof.
  unfold native_objects.
  change (h1 ++ [?c; ?p; ?e]) with (h1 ++ [c] ++ [p; e]).
  rewrite (assoc_L (++) h1), <- (assoc_L (++) (h1 ++ _)).
  apply take_app_length'. rewrite length_app. cbn [length]. lia.
Qed.

Lemma native_objects_lookup this h1 ext v :
  ((h1 ++ native_objects this h1 v) ++ ext) !! (length h1 + 2)%nat
  = Some (OElement NativeWindowsFlipView (VStr FLIPVIEW_REF)
                   (VRef (length h1 + 1)))
  ∧ ((h1 ++ native_objects this h1 v) ++ ext) !! (length h1 + 1)%nat
    = Some (OPlain
              (React.with_defaults
                 (defaults_of
                    (take (length h1 + 1)
                          ((h1 ++ native_objects this h1 v) ++ ext))
                    NativeWindowsFlipView)
                 (native_props this v))).
Proof.
  rewrite take_native_objects. split.
  - apply lookup_app_l_Some. rewrite lookup_app_r by lia.
    by replace (length h1 + 2 - length h1)%nat with 2%nat by lia.
  - apply lookup_app_l_Some. rewrite lookup_app_r by lia.
    by replace (length h1 + 1 - length h1)%nat with 1%nat by lia.
Qed.

(** ** The properties *)

(** C4.  For every integer [k], [setPage(k)] issues exactly one command
    dispatch, with the argument list [[k]].  Neither the children nor any
    other prop of the instance enters the dispatch: nothing is validated
    against the number of children. *)
Theorem setPage_dispatches_once
  (props : gmap string value) (children : React.node) (handle relay : value)
  (k : Z) (st : state) :
  setPage (Instance props children handle relay) (VInt k) st
  = Returns tt
      (State (st_heap st)
             (st_trace st ++ [Dispatch handle Commands_setPage [VInt k]])).
Proof. reflexivity. Qed.

(** C1 (amended).  On first mount the component issues exactly one
    page-set command, with the configured integer as its only argument,
    when [initialPage] is a nonzero integer, and no command when
    [initialPage] is unset or zero. *)
Theorem componentDidMount_sets_nonzero_initialPage
  (this : instance) (st : state) (initialPage : option Z) :
  prop this "initialPage" = from_option VInt VUndefined initialPage →
  componentDidMount this st
  = Returns tt
      (State (st_heap st)
             (st_trace st
              ++ match initialPage with
                 | None | Some 0%Z => []
                 | Some k =>
                     [Dispatch (node_handle this) Commands_setPage [VInt k]]
                 end)).
Proof.
  intros Hip. unfold componentDidMount. rewrite Hip.
  destruct st as [h tr].
  destruct initialPage as [[|k|k]|]; cbn; by rewrite ?app_nil_r.
Qed.

(** C5.  When a selection-change event [e] arrives and a callback is
    configured, the relay calls that callback exactly once, with [e]
    itself, and touches nothing in the store; when no callback is
    configured the relay does nothing and raises no error. *)
Theorem onSelectionChange_relayed_once
  (this : instance) (st : state) (e : value) (callback : option loc) :
  prop this "onSelectionChange" = from_option VRef VUndefined callback →
  match callback with
  | Some f => is_function (st_heap st) (VRef f) = true
  | None => True
  end →
  _onSelectionChange this e st
  = Returns tt
      (State (st_heap st)
             (st_trace st ++ match callback with
                             | Some f => [Call (VRef f) [e]]
                             | None => []
                             end)).
Proof.
  intros Hcb Hf. unfold _onSelectionChange. rewrite Hcb.
  destruct st as [h tr]. destruct callback as [f|]; cbn in *.
  - rewrite bind_run. unfold call. cbn.
    by destruct (h !! f) as [[]|].
  - by rewrite app_nil_r.
Qed.

(** C9.  The callback skips every falsy child, not only [null] and
    [undefined]: for [false], [0], [NaN] and the empty string as for any
    other falsy value it returns [null] and leaves store and trace as they
    were, exactly as it does for [null]. *)
Theorem falsy_child_skipped (child : value) (st : state) :
  truthy child = false →
  childWithOverridenStyle child st = Returns VNull st
  ∧ childWithOverridenStyle child st = childWithOverridenStyle VNull st.
Proof.
  intros Hc. by rewrite !childWithOverridenStyle_falsy.
Qed.

(** C3.  For a child that is an element, the callback returns a new
    element of the same type whose [style] is the array of the original
    style value followed by the fill overlay [{position: 'absolute',
    left: 0, top: 0, right: 0, bottom: 0, width: undefined,
    height: undefined}], whose [collapsable] is [false], and whose other
    props are those of the child.  The props of the child are props as
    [React.createElement] builds them for the type of the child: none is
    named [key], [ref], [__self] or [__source], and the default props
    of the type are resolved in them.  (In props in which they are not,
    [createElement] resolves them, and the new element has props that
    the child had not.) *)
Theorem rewritten_child_props
  (h : heap) (tr : list event) (child type ref : value)
  (fields : gmap string value) :
  element h child = Some (type, ref, fields) →
  no_reserved fields = true →
  defaults_resolved h type fields →
  ∃ r h' tr' fields' styles overlay,
    childWithOverridenStyle child (State h tr) = Returns r (State h' tr')
    ∧ element h' r = Some (type, VNull, fields')
    ∧ fields' !! "style" = Some (VRef styles)
    ∧ h' !! styles
      = Some (OArray [default VUndefined (fields !! "style"); VRef overlay])
    ∧ h' !! overlay
      = Some (OPlain {[ "position" := VStr "absolute";
                        "left" := VInt 0; "top" := VInt 0;
                        "right" := VInt 0; "bottom" := VInt 0;
                        "width" := VUndefined; "height" := VUndefined ]})
    ∧ fields' !! "collapsable" = Some (VBool false)
    ∧ ∀ name, name ≠ "style" → name ≠ "collapsable" →
              fields' !! name = fields !! name.
Proof.
  intros He Hres [Hdefault Hdefaults].
  destruct (without_reserved_newProps fields (VRef (length h + 1)) Hres)
    as [Hprops Href].
  destruct (element_inv _ _ _ _ _ He) as (l & p & -> & Hl & Hp & Hs).
  eexists _, _, _, (newProps_of fields (VRef (length h + 1))),
          (length h + 1)%nat, (length h).
  split; [apply (childWithOverridenStyle_element _ _ _ _ _ _ He)|].
  rewrite defaults_of_grows by done.
  pose proof (placed_at_end h
                (config_objects (length h) fields
                 ++ element_objects (length h) type (defaults_of h type)
                      fields))
    as Hnew.
  unfold config_objects, element_objects in *. cbn [app] in *.
  rewrite Hprops, Href, with_defaults_newProps in * by done.
  repeat split.
  - unfold element. rewrite (Hnew 4%nat _ eq_refl), (Hnew 3%nat _ eq_refl).
    by rewrite in_store_grows.
  - unfold newProps_of. by rewrite lookup_insert_ne, lookup_insert_eq.
  - apply (Hnew 1%nat _ eq_refl).
  - by apply list_lookup_middle.
  - unfold newProps_of. by rewrite lookup_insert_eq.
  - apply newProps_of_lookup.
Qed.

(** C7 (amended).  For every child that is an element and whose type has a
    non-empty [displayName] other than ['RCTView'] and ['View'], the
    callback logs one warning, the fixed message followed by that name;
    what it returns and what it adds to the store are what they would be
    without the check. *)
Theorem named_non_view_child_warned
  (h : heap) (tr : list event) (child type ref : value)
  (fields : gmap string value) (name : string) :
  element h child = Some (type, ref, fields) →
  peek h type "displayName" = VStr name →
  name ≠ "" → name ≠ "RCTView" → name ≠ "View" →
  ∃ r h',
    childWithOverridenStyle child (State h tr)
    = Returns r (State h' (tr ++ [Warn (warning_prefix +:+ name)]))
    ∧ childWithoutCheck child (State h tr) = Returns r (State h' tr).
Proof.
  intros He Hname Hempty Hrct Hview.
  destruct (element_inv _ _ _ _ _ He) as (l & p & -> & Hl & Hp & Hs).
  eexists _, _.
  rewrite (childWithOverridenStyle_element _ _ _ _ _ _ He).
  rewrite (childWithoutCheck_element _ _ _ _ _ _ He).
  split; [|done]. do 3 f_equal.
  unfold type_warning. rewrite in_store_lookup, Hname by done.
  assert (truthy type = true) as -> by (by destruct type).
  cbn [truthy strict_neq_str to_string andb].
  by rewrite !(proj2 (String.eqb_neq _ _)).
Qed.

(** C10.  The warning is logged only when the child's type and the type's
    [displayName] are both defined: for every child that is an element
    and whose type is not defined, or is defined and has no [displayName],
    the callback logs nothing. *)
Theorem no_displayName_no_warning
  (h : heap) (tr : list event) (child type ref : value)
  (fields : gmap string value) :
  element h child = Some (type, ref, fields) →
  nullish type = true ∨ nullish (peek h type "displayName") = true →
  ∃ r h', childWithOverridenStyle child (State h tr) = Returns r (State h' tr).
Proof.
  intros He Hno.
  destruct (element_inv _ _ _ _ _ He) as (l & p & -> & Hl & Hp & Hs).
  eexists _, _.
  rewrite (childWithOverridenStyle_element _ _ _ _ _ _ He).
  do 2 f_equal. rewrite <- (app_nil_r tr) at 2. f_equal.
  unfold type_warning. rewrite in_store_lookup by done.
  destruct Hno as [Hno|Hno].
  - by destruct type.
  - destruct (peek h type "displayName"); try done; by rewrite andb_false_r.
Qed.

(** C6 (amended).  When every child that is not skipped is an element, the
    rendered children are the rewritings of the children that are not
    skipped, in the order of the input: their number is the number of
    input children less those that are [null], [undefined], a boolean,
    [0], [NaN] or the empty string. *)
Theorem rendered_children_in_order
  (this : instance) (h : heap) (tr : list event) :
  pages_are_elements h (children this) = true →
  ∃ v new tr',
    _childrenWithOverridenStyle this (State h tr)
    = Returns v (State (h ++ new) tr')
    ∧ length (items_of (h ++ new) v)
      = (length (React.leaves (children this))
         - length (List.filter (fun child => negb (kept child))
                               (React.leaves (children this))))%nat
    ∧ Forall2 (rewritten h (h ++ new))
              (List.filter kept (React.leaves (children this)))
              (items_of (h ++ new) v).
Proof.
  intros Hall.
  destruct (_childrenWithOverridenStyle_pages this h tr Hall)
    as (v & new & tr' & Hrun & _ & Hitems).
  exists v, new, tr'. repeat split; [done| |done].
  rewrite <- (Forall2_length _ _ _ Hitems).
  rewrite <- (List.filter_length kept (React.leaves (children this))). lia.
Qed.

(** C2 (amended).  When every child that is not skipped is an element,
    [render()] raises no error and returns an element of the native
    control that carries the ref, the forwarded [style], [alwaysAnimate]
    and [selectedIndex], the relay, and the rewritten children.  (Where
    the native control has default props, [React.createElement] lets
    them stand in for the props that are [undefined].) *)
Theorem render_returns_native_element
  (this : instance) (h : heap) (tr : list event) :
  pages_are_elements h (children this) = true →
  ∃ l p rendered new tr',
    render this (State h tr) = Returns (VRef l) (State (h ++ new) tr')
    ∧ (h ++ new) !! l
      = Some (OElement NativeWindowsFlipView (VStr FLIPVIEW_REF) (VRef p))
    ∧ (h ++ new) !! p
      = Some (OPlain
                (React.with_defaults
                   (defaults_of (take p (h ++ new)) NativeWindowsFlipView)
                   {[ "style" := prop this "style";
                      "alwaysAnimate" := prop this "alwaysAnimate";
                      "onSelectionChange" := relay this;
                      "selectedIndex" := prop this "selectedIndex";
                      "children" := rendered ]}))
    ∧ Forall2 (rewritten h (h ++ new))
              (List.filter kept (React.leaves (children this)))
              (items_of (h ++ new) rendered).
Proof.
  intros Hall.
  destruct (_childrenWithOverridenStyle_pages this h tr Hall)
    as (v & new & tr' & Hrun & Hv & Hitems).
  exists (length (h ++ new) + 2)%nat, (length (h ++ new) + 1)%nat, v,
         (new ++ native_objects this (h ++ new) v), tr'.
  rewrite (assoc_L (++)).
  destruct (native_objects_lookup this (h ++ new) [] v) as [Hl Hp].
  rewrite app_nil_r in Hl, Hp.
  split; [by apply render_after_children|].
  split; [exact Hl|]. split; [exact Hp|].
  rewrite items_of_grows by done.
  eapply Forall2_impl; [exact Hitems|]. eauto using rewritten_grows.
Qed.


(** ** Further properties of the code *)

(** *** The relay and the commands *)

(** X1.  A configured [onSelectionChange] that is not a function: when it
    is falsy ([null], [false], [0], the empty string) the event is
    dropped without error, when it is truthy the relay throws a
    TypeError; in neither case is anything called or changed. *)
Theorem relay_of_non_function (this : instance) (st : state) (e : value) :
  is_function (st_heap st) (prop this "onSelectionChange") = false →
  _onSelectionChange this e st
  = if truthy (prop this "onSelectionChange")
    then Throws TypeError st
    else Returns tt st.
Proof.
  intros Hf. unfold _onSelectionChange.
  destruct (truthy (prop this "onSelectionChange")); [|done].
  rewrite bind_run. unfold call, is_function in *.
  destruct (prop this "onSelectionChange") as [| | | | |l]; try done.
  by destruct (st_heap st !! l) as [[]|].
Qed.

(** X2.  Selection events are relayed one for one and in the order in
    which they arrive: with a function configured, relaying the events
    [es] calls it once per event, in that order, and never changes the
    store. *)
Theorem relay_in_order
  (this : instance) (st : state) (es : list value) (f : loc) :
  prop this "onSelectionChange" = VRef f →
  is_function (st_heap st) (VRef f) = true →
  mapM (_onSelectionChange this) es st
  = Returns (List.map (fun _ => tt) es)
      (State (st_heap st)
             (st_trace st ++ List.map (fun e => Call (VRef f) [e]) es)).
Proof.
  intros Hcb Hf. destruct st as [h tr]. cbn [st_heap st_trace] in *.
  revert tr. induction es as [|e es IH]; intros tr.
  - cbn. by rewrite app_nil_r.
  - rewrite mapM_cons. unfold _onSelectionChange at 1. rewrite Hcb.
    cbn [truthy]. rewrite bind_run. unfold call, is_function in *.
    cbn [st_heap st_trace].
    destruct (h !! f) as [[]|]; try done.
    cbn [mret M_ret ret]. rewrite IH. cbn [List.map].
    by rewrite <- (assoc_L (++)).
Qed.

(** X3.  Page changes are dispatched one for one and in call order:
    calling [setPage] for each of the pages [ks] dispatches one command
    per call, also for a page that is asked for twice in a row; nothing is
    coalesced, dropped or checked against the children. *)
Theorem setPage_in_order (this : instance) (st : state) (ks : list value) :
  mapM (setPage this) ks st
  = Returns (List.map (fun _ => tt) ks)
      (State (st_heap st)
             (st_trace st
              ++ List.map (fun k => Dispatch (node_handle this)
                                             Commands_setPage [k]) ks)).
Proof.
  destruct st as [h tr]. cbn [st_heap st_trace].
  revert tr. induction ks as [|k ks IH]; intros tr.
  - cbn. by rewrite app_nil_r.
  - rewrite mapM_cons. cbn [setPage dispatchViewManagerCommand emit].
    cbn [st_heap st_trace]. rewrite IH. cbn [List.map].
    by rewrite <- (assoc_L (++)).
Qed.

(** *** What is logged *)

Lemma logs_weaken {A} k k' (m : M A) :
  (k ≤ k')%nat → logs_at_most k m → logs_at_most k' m.
Proof.
  intros Hk Hm st. destruct (Hm st) as (ws & Htr & Hws & Hlen).
  exists ws. split; [done|]. split; [done|lia].
Qed.

Lemma logs_silent {A} (m : M A) :
  (∀ st, st_trace (final (m st)) = st_trace st) → logs_at_most 0 m.
Proof. intros Hm st. exists []. by rewrite app_nil_r. Qed.

Lemma logs_bind {A B} k1 k2 (m : M A) (f : A → M B) :
  logs_at_most k1 m →
  (∀ a, logs_at_most k2 (f a)) →
  logs_at_most (k1 + k2) (m ≫= f).
Proof.
  intros Hm Hf st. rewrite bind_run.
  destruct (Hm st) as (ws & Htr & Hws & Hlen).
  destruct (m st) as [a st1|e st1]; cbn [final] in Htr |- *.
  - destruct (Hf a st1) as (ws' & Htr' & Hws' & Hlen').
    exists (ws ++ ws'). rewrite Htr', Htr, (assoc_L (++)), forallb_app.
    rewrite Hws, Hws', length_app. split; [done|]. split; [done|lia].
  - exists ws. split; [done|]. split; [done|lia].
Qed.

Lemma logs_get v name : logs_at_most 0 (get v name).
Proof.
  apply logs_silent. intros st. unfold get.
  destruct v; try done. by destruct (st_heap st !! l).
Qed.

Lemma logs_own_properties v : logs_at_most 0 (own_properties v).
Proof.
  apply logs_silent. intros st. unfold own_properties.
  destruct v; try done. by destruct (st_heap st !! l).
Qed.

Lemma logs_alloc o : logs_at_most 0 (alloc o).
Proof. by apply logs_silent. Qed.

Lemma logs_defaultProps_of type :
  logs_at_most 0 (React.defaultProps_of type).
Proof.
  unfold React.defaultProps_of.
  destruct (truthy type); [|by apply logs_silent].
  apply (logs_bind 0 0); [apply logs_get|]. intros defaultProps.
  destruct (truthy defaultProps); [|by apply logs_silent].
  apply logs_own_properties.
Qed.

Lemma logs_createElement type config :
  logs_at_most 0 (React.createElement type config).
Proof.
  unfold React.createElement.
  apply (logs_bind 0 0); [apply logs_own_properties|]. intros own.
  apply (logs_bind 0 0); [apply logs_defaultProps_of|]. intros defaults.
  apply (logs_bind 0 0); [apply logs_alloc|]. intros props.
  apply logs_alloc.
Qed.

Lemma logs_warnUnlessView child : logs_at_most 1 (warnUnlessView child).
Proof.
  unfold warnUnlessView.
  apply (logs_bind 0 1); [apply logs_get|]. intros type.
  destruct (truthy type);
    [|apply (logs_weaken 0); [lia|by apply logs_silent]].
  apply (logs_bind 0 1); [apply logs_get|]. intros displayName.
  destruct (_ && _ && _);
    [|apply (logs_weaken 0); [lia|by apply logs_silent]].
  apply (logs_bind 0 1); [by apply logs_silent|]. intros message.
  intros st. exists [Warn message]. by repeat split.
Qed.

Lemma logs_childWithOverridenStyle child :
  logs_at_most (if truthy child then 1 else 0)
               (childWithOverridenStyle child).
Proof.
  unfold childWithOverridenStyle.
  destruct (truthy child); cbn [negb]; [|by apply logs_silent].
  apply (logs_bind 0 1); [apply logs_get|]. intros childProps.
  apply (logs_bind 0 1); [apply logs_own_properties|]. intros spread.
  apply (logs_bind 0 1); [apply logs_get|]. intros style.
  apply (logs_bind 0 1); [apply logs_alloc|]. intros overlay.
  apply (logs_bind 0 1); [apply logs_alloc|]. intros styles.
  apply (logs_bind 0 1); [apply logs_alloc|]. intros newProps.
  apply (logs_bind 1 0); [apply logs_warnUnlessView|]. intros _.
  apply (logs_bind 0 0); [apply logs_get|]. intros type.
  apply logs_createElement.
Qed.

Lemma logs_visit child :
  logs_at_most (if kept child then 1 else 0)
               (React.visit childWithOverridenStyle child).
Proof.
  intros st. unfold React.visit.
  destruct child as [| | | | |l];
    try apply (logs_childWithOverridenStyle _ st).
  destruct (st_heap st !! l) as [[]|];
    try apply (logs_childWithOverridenStyle (VRef l) st);
    exists []; cbn; rewrite app_nil_r; (split; [done|split; [done|lia]]).
Qed.

Lemma logs_mapM {A B} (p : A → bool) (f : A → M B) (l : list A) :
  (∀ x, logs_at_most (if p x then 1 else 0) (f x)) →
  logs_at_most (length (List.filter p l)) (mapM f l).
Proof.
  intros Hf. induction l as [|x l IH]; [by apply logs_silent|].
  cbn [mapM List.filter].
  apply (logs_weaken ((if p x then 1 else 0)
                      + (length (List.filter p l) + 0))).
  { destruct (p x); cbn [length]; lia. }
  apply logs_bind; [apply Hf|]. intros y.
  apply logs_bind; [apply IH|]. intros ys. by apply logs_silent.
Qed.

Lemma logs_children this :
  logs_at_most (length (List.filter kept (React.leaves (children this))))
               (_childrenWithOverridenStyle this).
Proof.
  unfold _childrenWithOverridenStyle, React.Children_map.
  assert (logs_at_most
            (length (List.filter kept (React.leaves (children this))))
            (mapped ← mapM (React.visit childWithOverridenStyle)
                           (React.leaves (children this));
             alloc (OArray (List.filter (fun v => negb (nullish v))
                                        mapped)))) as Hgen.
  { apply (logs_weaken (length (List.filter kept
                                  (React.leaves (children this))) + 0));
      [lia|].
    apply logs_bind; [|intros; apply logs_alloc].
    apply logs_mapM. intros child. apply logs_visit. }
  destruct (children this) as [[]|]; try exact Hgen;
    apply (logs_weaken 0); try lia; by apply logs_silent.
Qed.

(** X4.  Whatever the children are, and whether it returns or throws,
    [render()] dispatches no command and calls no callback: all it adds
    to the trace are warnings, at most one for each child that is not
    skipped. *)
Theorem render_logs_only_warnings (this : instance) (st : state) :
  ∃ ws,
    st_trace (final (render this st)) = st_trace st ++ ws
    ∧ forallb is_warn ws = true
    ∧ (length ws
       ≤ length (List.filter kept (React.leaves (children this))))%nat.
Proof.
  revert st. change (logs_at_most
    (length (List.filter kept (React.leaves (children this))))
    (render this)).
  unfold render.
  apply (logs_weaken (length (List.filter kept
                                (React.leaves (children this))) + 0));
    [lia|].
  apply logs_bind; [apply logs_children|]. intros rendered.
  apply (logs_bind 0 0); [apply logs_alloc|]. intros config.
  apply logs_createElement.
Qed.

(** *** Children that are no elements *)

Lemma mapM_app {A B} (f : A → M B) l1 l2 st :
  mapM f (l1 ++ l2) st
  = match mapM f l1 st with
    | Returns ys st1 =>
        match mapM f l2 st1 with
        | Returns zs st2 => Returns (ys ++ zs) st2
        | Throws e st2 => Throws e st2
        end
    | Throws e st1 => Throws e st1
    end.
Proof.
  revert st. induction l1 as [|x l1 IH]; intros st.
  - cbn. by destruct (mapM f l2 st).
  - cbn [app]. rewrite !mapM_cons. destruct (f x st) as [y st1|]; [|done].
    rewrite IH. destruct (mapM f l1 st1) as [ys st2|]; [|done].
    by destruct (mapM f l2 st2).
Qed.

Lemma childWithOverridenStyle_primitive child st :
  kept child = true → primitive child = true →
  React.visit childWithOverridenStyle child st = Throws TypeError st.
Proof.
  intros Hk Hp. destruct st as [h tr].
  destruct child; try done;
    by apply childWithOverridenStyle_no_props.
Qed.

(** X5.  A child that is a non-empty string or a number other than [0]
    and [NaN] makes [render()] throw a TypeError, wherever it stands among
    the children: the throw leaves the store and the trace as rewriting
    the children before it left them, and the children after it are never
    looked at. *)
Theorem render_throws_at_first_primitive
  (this : instance) (h : heap) (tr : list event)
  (before after : list value) (child : value) :
  React.leaves (children this) = before ++ child :: after →
  forallb (fun c => implb (kept c) (is_element h c)) before = true →
  kept child = true →
  primitive child = true →
  ∃ rs new tr',
    mapM (fun c => childWithOverridenStyle (React.perceived c)) before
         (State h tr)
    = Returns rs (State (h ++ new) tr')
    ∧ render this (State h tr) = Throws TypeError (State (h ++ new) tr').
Proof.
  intros Hleaves Hbefore Hk Hp.
  destruct (mapM_pages h before Hbefore [] tr)
    as (rs & new & tr' & Hrun & Hrs).
  rewrite app_nil_r in Hrun. cbn [app] in Hrun.
  exists rs, new, tr'. split; [done|].
  apply render_throws_with_children.
  unfold _childrenWithOverridenStyle, React.Children_map.
  assert ((mapped ← mapM (React.visit childWithOverridenStyle)
                         (React.leaves (children this));
           alloc (OArray (List.filter (fun v => negb (nullish v)) mapped)))
            (State h tr)
          = Throws TypeError (State (h ++ new) tr')) as Hgen.
  { rewrite bind_run, Hleaves, mapM_app, children_visited, Hrun, mapM_cons
      by done.
    by rewrite childWithOverridenStyle_primitive. }
  destruct (children this) as [[]|]; try exact Hgen;
    cbn [React.leaves] in Hleaves;
    destruct before as [|? [|]]; try done;
    injection Hleaves as <-; done.
Qed.

(** *** Objects that were added *)

Lemma peek_new h1 objs i o name :
  objs !! i = Some o →
  peek (h1 ++ objs) (VRef (length h1 + i)) name = object_get o name.
Proof.
  intros Hi. unfold peek. rewrite lookup_app_r by lia.
  replace (length h1 + i - length h1)%nat with i by lia. by rewrite Hi.
Qed.

(** *** Rendering pages *)

Lemma kept_are_elements h cs :
  forallb (fun c => implb (kept c) (is_element h c)) cs = true →
  Forall (fun c => is_element h c = true) (List.filter kept cs).
Proof.
  induction cs as [|c cs IH]; cbn [forallb List.filter]; [constructor|].
  intros [Hc Hcs]%andb_prop. destruct (kept c); auto.
Qed.

Lemma pages_grow h ext children :
  pages_are_elements h children = true →
  pages_are_elements (h ++ ext) children = true.
Proof.
  unfold pages_are_elements. rewrite !forallb_forall.
  intros Hall c Hc. specialize (Hall c Hc).
  destruct (kept c); [|done]. cbn [implb] in *. unfold is_element in *.
  destruct (element h c) eqn:He; [|done].
  by rewrite (element_grows _ _ _ _ He).
Qed.

Lemma rewritten_rebase h ext h' cs rs :
  Forall (fun c => is_element h c = true) cs →
  Forall2 (rewritten (h ++ ext) h') cs rs →
  Forall2 (rewritten h h') cs rs.
Proof.
  intros Hcs Hrs. induction Hrs as [|c r cs rs Hr _ IH]; [constructor|].
  inversion Hcs as [|? ? Hc Hcs']; subst. constructor; [|by apply IH].
  destruct Hr as (type & ref & fields & n & He & Hn & -> & Hp).
  unfold is_element in Hc. destruct (element h c) as [e|] eqn:He0; [|done].
  rewrite (element_grows _ _ _ _ He0) in He. injection He as ->.
  exists type, ref, fields, n. repeat split; try done.
  rewrite length_app in Hn. lia.
Qed.

(** [render] when every child that is not skipped is an element: the
    element it returns carries what [_childrenWithOverridenStyle]
    returned. *)
Lemma render_pages this h tr :
  pages_are_elements h (children this) = true →
  ∃ l p rendered new tr',
    render this (State h tr) = Returns (VRef l) (State (h ++ new) tr')
    ∧ (h ++ new) !! l
      = Some (OElement NativeWindowsFlipView (VStr FLIPVIEW_REF) (VRef p))
    ∧ (h ++ new) !! p
      = Some (OPlain
                (React.with_defaults
                   (defaults_of (take p (h ++ new)) NativeWindowsFlipView)
                   (native_props this rendered)))
    ∧ Forall2 (rewritten h (h ++ new))
              (List.filter kept (React.leaves (children this)))
              (items_of (h ++ new) rendered).
Proof.
  intros Hall.
  destruct (_childrenWithOverridenStyle_pages this h tr Hall)
    as (v & new & tr' & Hrun & Hv & Hitems).
  exists (length (h ++ new) + 2)%nat, (length (h ++ new) + 1)%nat, v,
         (new ++ native_objects this (h ++ new) v), tr'.
  rewrite (assoc_L (++)).
  destruct (native_objects_lookup this (h ++ new) [] v) as [Hl Hp].
  rewrite app_nil_r in Hl, Hp.
  split; [by apply render_after_children|].
  split; [exact Hl|]. split; [exact Hp|].
  rewrite items_of_grows by done.
  eapply Forall2_impl; [exact Hitems|]. eauto using rewritten_grows.
Qed.

(** X6.  Rendering can be repeated, and the overlays do not pile up:
    when [render()] is run again on the store that a first [render()]
    left, it returns again an element of the native control, and the
    pages that it carries are rewritings of the children as they were
    supplied (their [style] is the supplied style followed by one
    overlay), not of the pages of the first rendering. *)
Theorem render_repeatable (this : instance) (h : heap) (tr : list event) :
  pages_are_elements h (children this) = true →
  ∃ r1 st1 l p rendered new tr2,
    render this (State h tr) = Returns r1 st1
    ∧ render this st1 = Returns (VRef l) (State (h ++ new) tr2)
    ∧ (h ++ new) !! l
      = Some (OElement NativeWindowsFlipView (VStr FLIPVIEW_REF) (VRef p))
    ∧ (h ++ new) !! p
      = Some (OPlain
                (React.with_defaults
                   (defaults_of (take p (h ++ new)) NativeWindowsFlipView)
                   (native_props this rendered)))
    ∧ Forall2 (rewritten h (h ++ new))
              (List.filter kept (React.leaves (children this)))
              (items_of (h ++ new) rendered).
Proof.
  intros Hall.
  destruct (render_pages this h tr Hall)
    as (l1 & p1 & v1 & new1 & tr1 & Hrun1 & _).
  destruct (render_pages this (h ++ new1) tr1 (pages_grow _ _ _ Hall))
    as (l2 & p2 & v2 & new2 & tr2 & Hrun2 & Hl & Hp & Hitems).
  exists (VRef l1), (State (h ++ new1) tr1), l2, p2, v2, (new1 ++ new2), tr2.
  rewrite (assoc_L (++)). split; [done|]. split; [done|].
  split; [done|]. split; [done|].
  eapply rewritten_rebase; [|exact Hitems].
  by apply kept_are_elements.
Qed.

(** *** The warnings of a rendering *)

Lemma type_warning_grows h ext type :
  in_store h type = true →
  primitive (peek h type "displayName") = true →
  type_warning (h ++ ext) type = type_warning h type.
Proof.
  intros Hs Hp. unfold type_warning. rewrite in_store_lookup by done.
  by destruct (peek h type "displayName").
Qed.

Lemma mapM_pages_trace h cs :
  forallb (fun c => implb (kept c) (is_element h c)) cs = true →
  forallb (fun c => match element h c with
                    | Some (type, _, _) =>
                        primitive (peek h type "displayName")
                    | None => true
                    end) cs = true →
  ∀ ext tr, ∃ rs ext',
    mapM (fun child => childWithOverridenStyle (React.perceived child)) cs
         (State (h ++ ext) tr)
    = Returns rs
        (State (h ++ ext ++ ext')
               (tr ++ flat_map (child_warning h) (List.filter kept cs))).
Proof.
  induction cs as [|child cs IH]; intros Hall Hnames ext tr.
  - exists [], []. cbn. by rewrite !app_nil_r.
  - cbn [forallb] in Hall, Hnames.
    apply andb_prop in Hall as [Hc Hcs].
    apply andb_prop in Hnames as [Hn Hns].
    rewrite mapM_cons. cbn [List.filter].
    destruct (kept child) eqn:Hk; cbn [implb] in Hc.
    + rewrite (kept_element h) by done.
      unfold is_element in Hc. cbn [flat_map]. unfold child_warning at 1.
      destruct (element h child) as [[[type ref] fields]|] eqn:He; [|done].
      rewrite (childWithOverridenStyle_element _ _ _ type ref fields)
        by by apply element_grows.
      destruct (element_inv _ _ _ _ _ He) as (l & p & -> & Hl & Hp & Hs).
      assert (∀ objs, type_warning ((h ++ ext) ++ objs) type
                      = type_warning h type) as ->.
      { intros objs. rewrite <- (assoc_L (++)).
        by apply type_warning_grows. }
      set (objs := config_objects _ _ ++ element_objects _ _ _ _).
      rewrite <- (assoc_L (++) h ext objs).
      destruct (IH Hcs Hns (ext ++ objs) (tr ++ type_warning h type))
        as (rs & ext' & Hrun).
      rewrite Hrun. eexists _, (objs ++ ext').
      by rewrite <- !(assoc_L (++)).
    + rewrite childWithOverridenStyle_falsy by done.
      destruct (IH Hcs Hns ext tr) as (rs & ext' & Hrun).
      rewrite Hrun. by eexists _, _.
Qed.

(** X7.  The warnings of a rendering are those of its pages, in the order
    of the pages: when every child that is not skipped is an element
    (and no [displayName] is an object), [render()] adds to the trace
    exactly what the check on the type logs for each such child in turn,
    and nothing else. *)
Theorem render_warnings_in_order
  (this : instance) (h : heap) (tr : list event) :
  pages_are_elements h (children this) = true →
  names_are_primitive h (children this) = true →
  ∃ r new,
    render this (State h tr)
    = Returns r
        (State (h ++ new)
               (tr ++ flat_map (child_warning h)
                        (List.filter kept (React.leaves (children this))))).
Proof.
  intros Hall Hnames.
  destruct (mapM_pages_trace h _ Hall Hnames [] tr) as (rs & new & Hrun).
  rewrite app_nil_r in Hrun. cbn [app] in Hrun.
  assert (∃ v new0,
    _childrenWithOverridenStyle this (State h tr)
    = Returns v
        (State (h ++ new0)
               (tr ++ flat_map (child_warning h)
                        (List.filter kept (React.leaves (children this))))))
    as (v & new0 & Hkids).
  { unfold _childrenWithOverridenStyle, React.Children_map.
    assert (∃ v new0,
      (mapped ← mapM (React.visit childWithOverridenStyle)
                     (React.leaves (children this));
       alloc (OArray (List.filter (fun v => negb (nullish v)) mapped)))
        (State h tr)
      = Returns v
          (State (h ++ new0)
                 (tr ++ flat_map (child_warning h)
                          (List.filter kept
                             (React.leaves (children this))))))
      as Hgen.
    { rewrite bind_run, children_visited, Hrun, alloc_run by done.
      eexists _, (new ++ [_]). by rewrite (assoc_L (++)). }
    destruct (children this) as [[]|items]; try exact Hgen.
    - exists VUndefined, []. cbn. by rewrite !app_nil_r.
    - exists VNull, []. cbn. by rewrite !app_nil_r. }
  rewrite (render_after_children _ _ _ _ _ Hkids).
  eexists _, (new0 ++ _). by rewrite (assoc_L (++)).
Qed.

Lemma nothing_kept h cs :
  List.filter kept cs = [] →
  forallb (fun c => implb (kept c) (is_element h c)) cs = true.
Proof.
  induction cs as [|c cs IH]; [done|]. cbn [List.filter forallb].
  destruct (kept c); [done|]. intros Hcs. by rewrite IH.
Qed.

(** X8.  Without pages [render()] still returns: when there are no
    children, or when every child is skipped ([null], [undefined], a
    boolean, [0], [NaN], the empty string), it returns an element of the
    native control and logs nothing.  The [children] that it passes on
    hold no page: they are the [undefined] or [null] that it was given
    when there are no children at all, and a new, empty array otherwise. *)
Theorem render_without_pages (this : instance) (h : heap) (tr : list event) :
  List.filter kept (React.leaves (children this)) = [] →
  ∃ l p rendered new,
    render this (State h tr) = Returns (VRef l) (State (h ++ new) tr)
    ∧ (h ++ new) !! l
      = Some (OElement NativeWindowsFlipView (VStr FLIPVIEW_REF) (VRef p))
    ∧ (h ++ new) !! p
      = Some (OPlain
                (React.with_defaults
                   (defaults_of (take p (h ++ new)) NativeWindowsFlipView)
                   (native_props this rendered)))
    ∧ if no_children (children this)
      then children this = React.Leaf rendered
      else ∃ a, rendered = VRef a
                ∧ (length h ≤ a)%nat
                ∧ (h ++ new) !! a = Some (OArray []).
Proof.
  intros Hnone.
  assert (∃ v new1,
    _childrenWithOverridenStyle this (State h tr)
    = Returns v (State (h ++ new1) tr)
    ∧ if no_children (children this)
      then children this = React.Leaf v
      else ∃ a, v = VRef a
                ∧ (length h ≤ a)%nat
                ∧ (h ++ new1) !! a = Some (OArray []))
    as (v & new1 & Hkids & Hv).
  { destruct (no_children (children this)) eqn:Hno.
    - unfold _childrenWithOverridenStyle, React.Children_map.
      destruct (children this) as [[]|]; try done.
      + exists VUndefined, []. by rewrite app_nil_r.
      + exists VNull, []. by rewrite app_nil_r.
    - destruct (_childrenWithOverridenStyle_array this h tr Hno
                  (nothing_kept h _ Hnone))
        as (a & items & new1 & tr' & Hrun & Ha & Harray & Hitems).
      destruct (logs_children this (State h tr)) as (ws & Htr & _ & Hlen).
      rewrite Hrun, Hnone in *. cbn [final st_trace length] in *.
      destruct ws; [|cbn in Hlen; lia]. rewrite app_nil_r in Htr. subst tr'.
      apply Forall2_nil_inv_l in Hitems as ->.
      exists (VRef a), new1. split; [done|]. by exists a. }
  exists (length (h ++ new1) + 2)%nat, (length (h ++ new1) + 1)%nat, v,
         (new1 ++ native_objects this (h ++ new1) v).
  rewrite (assoc_L (++)).
  destruct (native_objects_lookup this (h ++ new1) [] v) as [Hl Hp].
  rewrite app_nil_r in Hl, Hp.
  split; [by apply render_after_children|].
  split; [exact Hl|]. split; [exact Hp|].
  destruct (no_children (children this)); [done|].
  destruct Hv as (a & -> & Ha & Harray). exists a.
  split; [done|]. split; [done|]. by apply lookup_app_l_Some.
Qed.

(** *** Refs *)

(** X9.  A ref on a page is lost: the element that the callback returns
    is built by [React.createElement(child.type, newProps)], and the ref
    of a child is no prop of it, so whatever ref the child carries, the
    rewritten page has the type of the child and the ref [null]. *)
Theorem page_ref_dropped
  (h : heap) (tr : list event) (child type ref : value)
  (fields : gmap string value) :
  element h child = Some (type, ref, fields) →
  fields !! "ref" = None →
  ∃ r h' tr',
    childWithOverridenStyle child (State h tr) = Returns r (State h' tr')
    ∧ peek h' r "type" = type
    ∧ peek h' r "ref" = VNull.
Proof.
  intros He Href. eexists _, _, _.
  split; [apply (childWithOverridenStyle_element _ _ _ _ _ _ He)|].
  assert (React.ref_of (newProps_of fields (VRef (length h + 1))) = VNull)
    as Hnull.
  { unfold React.ref_of. by rewrite newProps_of_lookup, Href. }
  split.
  - by rewrite (peek_new h _ 4 (OElement type
                  (React.ref_of (newProps_of fields (VRef (length h + 1))))
                  (VRef (length h + 3)))).
  - rewrite (peek_new h _ 4 (OElement type
               (React.ref_of (newProps_of fields (VRef (length h + 1))))
               (VRef (length h + 3)))) by done.
    exact Hnull.
Qed.

(** X10.  [getInnerViewNode()] hands the call over to the native view
    that is mounted under the ref ['flipView']: it calls the
    [getInnerViewNode] of that view once, without arguments, and returns
    what the view returns.  When no view is mounted under the ref, or
    the view has no such method, it throws a TypeError and calls
    nothing. *)
Theorem getInnerViewNode_delegates (refs answer : value) (st : state) :
  nullish refs = false →
  getInnerViewNode refs answer st
  = let method :=
      peek (st_heap st) (peek (st_heap st) refs FLIPVIEW_REF)
           "getInnerViewNode" in
    if is_function (st_heap st) method
    then Returns answer
           (State (st_heap st) (st_trace st ++ [Call method []]))
    else Throws TypeError st.
Proof.
  intros Hrefs. destruct st as [h tr]. cbn [st_heap st_trace].
  unfold getInnerViewNode. rewrite bind_run, peek_get by done.
  set (view := peek h refs FLIPVIEW_REF).
  destruct (nullish view) eqn:Hview.
  - assert (peek h view "getInnerViewNode" = VUndefined) as ->
      by (by destruct view).
    by destruct view.
  - rewrite bind_run, peek_get by done.
    set (method := peek h view "getInnerViewNode").
    unfold call_returning, is_function. cbn [st_heap st_trace].
    destruct method as [| | | | |m]; try done.
    by destruct (h !! m) as [[]|].
Qed.

(** *** The props that reach the native view *)

(** X11.  Of the props of the component only [style], [alwaysAnimate]
    and [selectedIndex] reach the native view, with the children and the
    relay: two instances that agree on these render alike, whatever their
    other props ([initialPage], [onSelectionChange], a [testID], ...)
    are. *)
Theorem render_ignores_other_props (this this' : instance) (st : state) :
  children this = children this' →
  relay this = relay this' →
  prop this "style" = prop this' "style" →
  prop this "alwaysAnimate" = prop this' "alwaysAnimate" →
  prop this "selectedIndex" = prop this' "selectedIndex" →
  render this st = render this' st.
Proof.
  intros Hkids Hrelay Hstyle Hanim Hsel.
  unfold render, _childrenWithOverridenStyle.
  by rewrite Hkids, Hrelay, Hstyle, Hanim, Hsel.
Qed.

End FlipViewWindows.

(** ** The properties on the examples

    From here on the host is the one of the examples. *)
#[local] Existing Instance Example.host.

(** C1 on the example: [initialPage={1}] gives one command with [[1]]. *)
Lemma componentDidMount_sets_nonzero_initialPage_witness :
  prop example_this "initialPage" = VInt 1
  ∧ componentDidMount example_this example_state
    = Returns tt
        (State example_store [Dispatch (VInt 42) Commands_setPage [VInt 1]]).
Proof.
  split; [reflexivity|].
  apply (componentDidMount_sets_nonzero_initialPage
           example_this example_state (Some 1%Z)).
  reflexivity.
Defined.

(** C1 as the specification words it fails for [initialPage={0}]: the
    guard [if (this.props.initialPage)] is false of zero, and no command
    is issued. *)
Lemma componentDidMount_initialPage_zero :
  let this :=
    example_with {[ "initialPage" := VInt 0 ]} (React.Leaf VUndefined) in
  componentDidMount this example_state = Returns tt example_state
  ∧ ¬ one_command_for_every_initialPage this example_state.
Proof.
  intros this. split; [reflexivity|].
  intros H. specialize (H 0%Z eq_refl). vm_compute in H. discriminate H.
Qed.

(** C2 on the example: the two pages are elements, and [render()]
    returns. *)
Lemma render_returns_native_element_witness :
  pages_are_elements example_store (children example_this) = true
  ∧ ∃ l st', render example_this example_state = Returns (VRef l) st'.
Proof.
  split; [reflexivity|].
  destruct (render_returns_native_element example_this example_store []
              eq_refl)
    as (l & p & rendered & new & tr' & Hrun & _).
  by exists l, (State (example_store ++ new) tr').
Defined.

(** C2 as the specification words it fails for a child that is a string:
    [<FlipViewWindows>hello</FlipViewWindows>].  The string is truthy, it
    has no [props], and reading [child.props.style] throws. *)
Lemma render_throws_on_string_child :
  let this := example_with ∅ (React.Leaf (VStr "hello")) in
  render this example_state = Throws TypeError example_state
  ∧ ¬ render_succeeds this example_state.
Proof.
  intros this. split; [reflexivity|].
  intros (l & st' & ref & props & Hrun & _). vm_compute in Hrun.
  discriminate Hrun.
Qed.

(** C3 on the example: a page with [style={7}] and [testID='own'] whose
    type has the default [testID='dflt']. *)
Lemma rewritten_child_props_witness :
  element example_store_with_defaults (VRef 19)
  = Some (VRef 17, VNull, {[ "style" := VInt 7; "testID" := VStr "own" ]})
  ∧ no_reserved {[ "style" := VInt 7; "testID" := VStr "own" ]} = true
  ∧ defaults_resolved example_store_with_defaults (VRef 17)
      {[ "style" := VInt 7; "testID" := VStr "own" ]}
  ∧ ∃ r h' tr' fields',
      childWithOverridenStyle (VRef 19) (State example_store_with_defaults [])
      = Returns r (State h' tr')
      ∧ element h' r = Some (VRef 17, VNull, fields')
      ∧ fields' !! "collapsable" = Some (VBool false)
      ∧ fields' !! "testID" = Some (VStr "own").
Proof.
  split; [reflexivity|]. split; [reflexivity|].
  split; [split; reflexivity|].
  destruct (rewritten_child_props example_store_with_defaults [] (VRef 19)
              (VRef 17) VNull
              {[ "style" := VInt 7; "testID" := VStr "own" ]}
              eq_refl eq_refl (conj eq_refl eq_refl))
    as (r & h' & tr' & fields' & styles & overlay
        & Hrun & Hel & _ & _ & _ & Hcol & Hrest).
  exists r, h', tr', fields'. repeat split; try done.
  by rewrite Hrest.
Defined.

(** Where the defaults are not resolved in the props of a child,
    [createElement] resolves them: a page of the same type that was made
    by hand without [testID] is rendered with [testID='dflt']. *)
Lemma default_fills_missing_prop :
  element example_store_with_defaults (VRef 21) = Some (VRef 17, VNull, ∅)
  ∧ React.with_defaults (defaults_of example_store_with_defaults (VRef 17)) ∅
    = {[ "testID" := VStr "dflt" ]}
  ∧ ∃ h' fields',
      childWithOverridenStyle (VRef 21) (State example_store_with_defaults [])
      = Returns (VRef 26) (State h' [])
      ∧ element h' (VRef 26) = Some (VRef 17, VNull, fields')
      ∧ fields' !! "testID" = Some (VStr "dflt").
Proof.
  split; [reflexivity|]. split; [reflexivity|].
  eexists _, _. split; [reflexivity|]. split; reflexivity.
Qed.

(** C5 on the example: the configured callback is called with the event. *)
Lemma onSelectionChange_relayed_once_witness :
  prop example_this "onSelectionChange" = VRef 0
  ∧ is_function example_store (VRef 0) = true
  ∧ _onSelectionChange example_this (VRef 15) example_state
    = Returns tt (State example_store [Call (VRef 0) [VRef 15]]).
Proof.
  split; [reflexivity|]. split; [reflexivity|].
  apply (onSelectionChange_relayed_once example_this example_state (VRef 15)
           (Some 0%nat)); reflexivity.
Defined.

(** C6 on the example: of the children [<View/>], [null], [<Text/>],
    [false] the two elements are rendered. *)
Lemma rendered_children_in_order_witness :
  let this :=
    example_with ∅ (React.Fragment [React.Leaf (VRef 7); React.Leaf VNull;
                                    React.Leaf (VRef 9);
                                    React.Leaf (VBool false)]) in
  pages_are_elements example_store (children this) = true
  ∧ ∃ v h' tr',
      _childrenWithOverridenStyle this example_state
      = Returns v (State h' tr')
      ∧ length (items_of h' v) = 2%nat.
Proof.
  intros this. split; [reflexivity|].
  destruct (rendered_children_in_order this example_store [] eq_refl)
    as (v & new & tr' & Hrun & Hlen & _).
  by exists v, (example_store ++ new), tr'.
Defined.

(** C6 as the specification words it fails for a child that is [0]:
    [0] is neither [null] nor [undefined], and it is not rendered.  Of
    the two children [<View/>] and [0] one is rendered. *)
Lemma zero_child_dropped :
  let this :=
    example_with ∅ (React.Fragment [React.Leaf (VRef 7);
                                    React.Leaf (VInt 0)]) in
  length (React.leaves (children this)) = 2%nat
  ∧ List.filter nullish (React.leaves (children this)) = []
  ∧ (∃ st' items,
       _childrenWithOverridenStyle this example_state
       = Returns (VRef 21) st'
       ∧ st_heap st' !! 21%nat = Some (OArray items)
       ∧ length items = 1%nat)
  ∧ ¬ count_less_nullish this example_state.
Proof.
  intros this. split; [reflexivity|]. split; [reflexivity|]. split.
  - eexists _, _. split; [reflexivity|]. split; reflexivity.
  - intros (v & st' & Hrun & Hlen). vm_compute in Hrun.
    injection Hrun as <- <-. vm_compute in Hlen. discriminate Hlen.
Qed.

(** C7 on the example: a [Text] page is warned about. *)
Lemma named_non_view_child_warned_witness :
  element example_store (VRef 9) = Some (VRef 3, VNull, ∅)
  ∧ peek example_store (VRef 3) "displayName" = VStr "Text"
  ∧ ∃ r h',
      childWithOverridenStyle (VRef 9) example_state
      = Returns r
          (State h' [Warn "Each FlipView child must be a <View>. Was Text"]).
Proof.
  split; [reflexivity|]. split; [reflexivity|].
  destruct (named_non_view_child_warned example_store [] (VRef 9) (VRef 3)
              VNull ∅ "Text" eq_refl eq_refl)
    as (r & h' & Hrun & _); [done..|].
  by exists r, h'.
Defined.

(** C7 as the specification words it fails for a page whose type has the
    empty string as [displayName]: the name is neither ['RCTView'] nor
    ['View'], but [child.type.displayName &&] is false of it and nothing
    is logged. *)
Lemma empty_displayName_not_warned :
  element example_store (VRef 13) = Some (VRef 5, VNull, ∅)
  ∧ peek example_store (VRef 5) "displayName" = VStr ""
  ∧ st_trace (final (childWithOverridenStyle (VRef 13) example_state)) = []
  ∧ ¬ warned_for_every_other_name (VRef 13) example_state.
Proof.
  split; [reflexivity|]. split; [reflexivity|]. split; [reflexivity|].
  intros H.
  destruct (H (VRef 5) VNull ∅ "" eq_refl eq_refl) as (r & h' & Hrun);
    [done..|].
  vm_compute in Hrun. discriminate Hrun.
Qed.



(** C9 on the values the claim names. *)
Lemma falsy_child_skipped_witness :
  Forall (fun child =>
            truthy child = false
            ∧ childWithOverridenStyle child example_state
              = Returns VNull example_state)
         [VBool false; VInt 0; VNum S754_nan; VStr ""].
Proof.
  repeat (apply List.Forall_cons;
          [split; [reflexivity|apply falsy_child_skipped; reflexivity]|]).
  apply List.Forall_nil.
Defined.

(** C10 on the example: a page of a component without [displayName]. *)
Lemma no_displayName_no_warning_witness :
  element example_store (VRef 11) = Some (VRef 4, VNull, ∅)
  ∧ nullish (peek example_store (VRef 4) "displayName") = true
  ∧ ∃ r h',
      childWithOverridenStyle (VRef 11) example_state
      = Returns r (State h' []).
Proof.
  split; [reflexivity|]. split; [reflexivity|].
  apply (no_displayName_no_warning example_store [] (VRef 11) (VRef 4)
           VNull ∅ eq_refl).
  right. reflexivity.
Defined.

(** ** The further properties on the examples *)

(** X1 on the example: [onSelectionChange={5}] makes the relay throw,
    [onSelectionChange={null}] makes it drop the event. *)
Lemma relay_of_non_function_witness :
  (is_function example_store (VInt 5) = false
   ∧ _onSelectionChange (example_with {[ "onSelectionChange" := VInt 5 ]}
                                      (React.Leaf VUndefined))
                        (VRef 15) example_state
     = Throws TypeError example_state)
  ∧ (is_function example_store VNull = false
     ∧ _onSelectionChange (example_with {[ "onSelectionChange" := VNull ]}
                                        (React.Leaf VUndefined))
                          (VRef 15) example_state
       = Returns tt example_state).
Proof.
  split; (split; [reflexivity|]).
  - exact (relay_of_non_function
             (example_with {[ "onSelectionChange" := VInt 5 ]}
                           (React.Leaf VUndefined))
             example_state (VRef 15) eq_refl).
  - exact (relay_of_non_function
             (example_with {[ "onSelectionChange" := VNull ]}
                           (React.Leaf VUndefined))
             example_state (VRef 15) eq_refl).
Defined.

(** X2 on the example: two events, two calls, in order. *)
Lemma relay_in_order_witness :
  prop example_this "onSelectionChange" = VRef 0
  ∧ is_function example_store (VRef 0) = true
  ∧ mapM (_onSelectionChange example_this) [VRef 15; VRef 14] example_state
    = Returns [tt; tt]
        (State example_store
               [Call (VRef 0) [VRef 15]; Call (VRef 0) [VRef 14]]).
Proof.
  split; [reflexivity|]. split; [reflexivity|].
  apply (relay_in_order example_this example_state [VRef 15; VRef 14] 0);
    reflexivity.
Defined.

(** X5 on the example: [<View/>] followed by the string ['hello']. *)
Lemma render_throws_at_first_primitive_witness :
  let this :=
    example_with ∅ (React.Fragment [React.Leaf (VRef 7);
                                    React.Leaf (VStr "hello");
                                    React.Leaf (VRef 9)]) in
  React.leaves (children this) = [VRef 7] ++ VStr "hello" :: [VRef 9]
  ∧ kept (VStr "hello") = true
  ∧ primitive (VStr "hello") = true
  ∧ ∃ st', render this example_state = Throws TypeError st'.
Proof.
  intros this. split; [reflexivity|]. split; [reflexivity|].
  split; [reflexivity|].
  destruct (render_throws_at_first_primitive this example_store []
              [VRef 7] [VRef 9] (VStr "hello")
              eq_refl eq_refl eq_refl eq_refl)
    as (rs & new & tr' & _ & Hrun).
  by exists (State (example_store ++ new) tr').
Defined.

(** X6 on the example. *)
Lemma render_repeatable_witness :
  pages_are_elements example_store (children example_this) = true
  ∧ ∃ r1 st1 r2 st2,
      render example_this example_state = Returns r1 st1
      ∧ render example_this st1 = Returns r2 st2.
Proof.
  split; [reflexivity|].
  destruct (render_repeatable example_this example_store [] eq_refl)
    as (r1 & st1 & l & p & rendered & new & tr2 & Hrun1 & Hrun2 & _).
  by exists r1, st1, (VRef l), (State (example_store ++ new) tr2).
Defined.

(** X7 on the example: of the pages [<View/>], [<Text/>] and a page of a
    component without [displayName], the second is warned about. *)
Lemma render_warnings_in_order_witness :
  let this :=
    example_with ∅ (React.Fragment [React.Leaf (VRef 7); React.Leaf (VRef 9);
                                    React.Leaf (VRef 11)]) in
  pages_are_elements example_store (children this) = true
  ∧ names_are_primitive example_store (children this) = true
  ∧ ∃ r h',
      render this example_state
      = Returns r
          (State h' [Warn "Each FlipView child must be a <View>. Was Text"]).
Proof.
  intros this. split; [reflexivity|]. split; [reflexivity|].
  destruct (render_warnings_in_order this example_store [] eq_refl eq_refl)
    as (r & new & Hrun).
  by exists r, (example_store ++ new).
Defined.

(** X8 on the example: the children [null] and [false]. *)
Lemma render_without_pages_witness :
  let this :=
    example_with ∅ (React.Fragment [React.Leaf VNull;
                                    React.Leaf (VBool false)]) in
  List.filter kept (React.leaves (children this)) = []
  ∧ ∃ l p a h',
      render this example_state = Returns (VRef l) (State h' [])
      ∧ h' !! l
        = Some (OElement NativeWindowsFlipView (VStr "flipView") (VRef p))
      ∧ peek h' (VRef p) "children" = VRef a
      ∧ h' !! a = Some (OArray []).
Proof.
  intros this. split; [reflexivity|].
  destruct (render_without_pages this example_store [] eq_refl)
    as (l & p & rendered & new & Hrun & Hl & Hp & a & -> & _ & Ha).
  exists l, p, a, (example_store ++ new).
  split; [exact Hrun|]. split; [exact Hl|]. split; [|exact Ha].
  unfold peek. by rewrite Hp.
Defined.

(** X9 on the example: the [View] page that carries the ref ['page']. *)
Lemma page_ref_dropped_witness :
  element example_store_with_ref (VRef 17) = Some (VRef 2, VStr "page", ∅)
  ∧ ∃ r h' tr',
      childWithOverridenStyle (VRef 17) (State example_store_with_ref [])
      = Returns r (State h' tr')
      ∧ peek h' r "ref" = VNull.
Proof.
  split; [reflexivity|].
  destruct (page_ref_dropped example_store_with_ref [] (VRef 17) (VRef 2)
              (VStr "page") ∅ eq_refl eq_refl)
    as (r & h' & tr' & Hrun & _ & Href).
  by exists r, h', tr'.
Defined.

(** X10 on the example: with the native view mounted the call is handed
    over, without it the method throws. *)
Lemma getInnerViewNode_delegates_witness :
  getInnerViewNode (VRef 21) (VInt 3) (State example_store_with_ref [])
  = Returns (VInt 3) (State example_store_with_ref [Call (VRef 19) []])
  ∧ getInnerViewNode (VRef 18) (VInt 3) (State example_store_with_ref [])
    = Throws TypeError (State example_store_with_ref []).
Proof.
  split.
  - apply (getInnerViewNode_delegates (VRef 21) (VInt 3)
             (State example_store_with_ref []) eq_refl).
  - apply (getInnerViewNode_delegates (VRef 18) (VInt 3)
             (State example_store_with_ref []) eq_refl).
Defined.

(** X11 on the example: a [testID] and an [initialPage] change nothing in
    what is rendered. *)
Lemma render_ignores_other_props_witness :
  render (example_with {[ "testID" := VStr "pager"; "initialPage" := VInt 1 ]}
                       (children example_this))
         example_state
  = render (example_with ∅ (children example_this)) example_state.
Proof.
  apply render_ignores_other_props; reflexivity.
Defined.
